(** * ShelterSignal front end: a shallow embedding of the TypeScript sources

    The development follows the layout of [frontend/]:
    - [Js]            the fragment of JavaScript values the code manipulates;
    - [Types]         [src/types/index.ts];
    - [Utils]         [src/lib/utils.ts] (formatting helpers);
    - [EnUS]          the [en-US] number formatter the helpers call;
    - [Axios]         what an [axios.get] hands back to its caller;
    - [PropertyApi]   [pages/api/property.ts] (the proxy route);
    - [Charts]        [valuehistorychart.tsx] and [PredictionChart.tsx];
    - [Dashboard]     [insightsdashboard.tsx];
    - [Page]          [src/app/page.tsx];
    - [Ordering]      the date order of point sequences;
    - [Samples]       concrete records, requests and backends.

    Code that may throw lives in the error monad [sum JsError]; code that
    mutates an object ([res] in the route, the React state of the page) lives
    in a state monad over that object, with exceptions layered on top so that
    a [catch] keeps the effects performed before the throw. *)

From Stdlib Require Import String Ascii ZArith NArith List Bool Lia.
From Corelib Require Import SpecFloat.
From ExtLib Require Import Structures.Monad Structures.MonadState Structures.MonadExc.
From ExtLib Require Import Data.Monads.StateMonad Data.Monads.EitherMonad.
Import ListNotations.
Import MonadNotation.
Local Open Scope monad_scope.
Local Open Scope string_scope.
Local Open Scope list_scope.

(* ===================================================================== *)
(** ** JavaScript values                                                  *)
(* ===================================================================== *)

Module Js.

(** A JavaScript string is a sequence of UTF-16 code units. *)
Definition code_unit := N.
Definition jsstring := list code_unit.

(** An ASCII literal of the source, as code units. *)
Fixpoint lit (s : string) : jsstring :=
  match s with
  | EmptyString => []
  | String a s' => N_of_ascii a :: lit s'
  end.

Fixpoint str_eqb (a b : jsstring) : bool :=
  match a, b with
  | [], [] => true
  | x :: a', y :: b' => N.eqb x y && str_eqb a' b'
  | _, _ => false
  end.

(** [x?: T | null]: the property is missing, [null], or holds a [T]. *)
Inductive optional (A : Type) : Type :=
| Undefined
| Null
| Val (a : A).
Arguments Undefined {A}.
Arguments Null {A}.
Arguments Val {A} a.

(** [number] is an IEEE-754 binary64. *)
Definition number := spec_float.
Definition number_of_Z (z : Z) : number := binary_normalize 53 1024 z 0 false.

Definition isNaN (x : number) : bool :=
  match x with S754_nan => true | _ => false end.

(** Truthiness ([!x], [x && ...], [x || ...]) at the types that occur. *)
Definition truthy_string (s : jsstring) : bool :=
  match s with [] => false | _ => true end.

Definition truthy_number (x : number) : bool :=
  match x with
  | S754_zero _ | S754_nan => false
  | _ => true
  end.

Definition truthy_opt {A} (t : A -> bool) (x : optional A) : bool :=
  match x with Val a => t a | _ => false end.

(** [a || b] on possibly missing strings, when [b] is a string. *)
Definition or_string (a : optional jsstring) (b : jsstring) : jsstring :=
  match a with
  | Val s => if truthy_string s then s else b
  | _ => b
  end.

(** [typeof x === 'number'] for [x?: number | null]. *)
Definition is_number (x : optional number) : bool :=
  match x with Val _ => true | _ => false end.

(** [String.prototype.trim]: strips WhiteSpace and LineTerminator code
    units (ECMA-262, 22.1.3.32) from both ends. *)
Definition is_white_space (c : code_unit) : bool :=
  ((9 <=? c) && (c <=? 13) || (c =? 32) || (c =? 160) || (c =? 5760)
   || (8192 <=? c) && (c <=? 8202) || (c =? 8232) || (c =? 8233)
   || (c =? 8239) || (c =? 8287) || (c =? 12288) || (c =? 65279))%N.

Fixpoint trimStart (s : jsstring) : jsstring :=
  match s with
  | c :: s' => if is_white_space c then trimStart s' else s
  | [] => []
  end.

Definition trimEnd (s : jsstring) : jsstring := rev (trimStart (rev s)).
Definition trim (s : jsstring) : jsstring := trimEnd (trimStart s).

(** Decimal digits of a non-negative integer ([String(n)]). *)
Fixpoint uint_units (u : Decimal.uint) : jsstring :=
  match u with
  | Decimal.Nil => []
  | Decimal.D0 u' => 48%N :: uint_units u'
  | Decimal.D1 u' => 49%N :: uint_units u'
  | Decimal.D2 u' => 50%N :: uint_units u'
  | Decimal.D3 u' => 51%N :: uint_units u'
  | Decimal.D4 u' => 52%N :: uint_units u'
  | Decimal.D5 u' => 53%N :: uint_units u'
  | Decimal.D6 u' => 54%N :: uint_units u'
  | Decimal.D7 u' => 55%N :: uint_units u'
  | Decimal.D8 u' => 56%N :: uint_units u'
  | Decimal.D9 u' => 57%N :: uint_units u'
  end.

Definition decimal_digits (n : N) : jsstring := uint_units (N.to_uint n).

(** [String(z)] for an integer [z]. *)
Definition string_of_Z (z : Z) : jsstring :=
  match z with
  | Zneg p => lit "-" ++ decimal_digits (Npos p)
  | _ => decimal_digits (Z.to_N z)
  end.

(** Thrown values, and computations that return or throw. *)
Inductive JsError : Type :=
| RangeError
| TypeError
| OtherError.

Definition completion (A : Type) : Type := (JsError + A)%type.

#[global] Instance Monad_completion : Monad completion := Monad_either JsError.
#[global] Instance Exception_completion : MonadExc JsError completion :=
  Exception_either JsError.

(** [Array.prototype.slice(start)]. *)
Definition Array_slice {A} (start : Z) (l : list A) : list A :=
  let len := Z.of_nat (length l) in
  let k := if (start <? 0)%Z then Z.max (len + start) 0 else Z.min start len in
  skipn (Z.to_nat k) l.

End Js.
Import Js.

(* ===================================================================== *)
(** ** [src/types/index.ts]                                               *)
(* ===================================================================== *)

Module Types.

Record HistoricalValue := {
  hv_date : jsstring;   (* "YYYY-MM-DD" *)
  hv_value : number
}.

Record PredictionPoint := {
  pp_date : jsstring;   (* "YYYY-MM-DD" for future date *)
  pp_value : number
}.

Record CensusData := {
  totalPopulation : optional number;
  malePopulation : optional number;
  femalePopulation : optional number;
  medianAge : optional number
}.

Inductive MarketTrend := Increasing | Decreasing | Stable | Unknown | Error.

Record PropertyData := {
  (* Rentcast fields *)
  id : optional jsstring;
  address : optional jsstring;
  formattedAddress : optional jsstring;
  latitude : optional number;
  longitude : optional number;
  bedrooms : optional number;
  bathrooms : optional number;
  squareFootage : optional number;
  lotSize : optional number;
  yearBuilt : optional number;
  propertyType : optional jsstring;
  description : optional jsstring;
  valueEstimate : optional number;
  valueEstimateLow : optional number;
  valueEstimateHigh : optional number;
  rentEstimate : optional number;
  rentEstimateLow : optional number;
  rentEstimateHigh : optional number;
  lastSoldDate : optional jsstring;
  lastSoldPrice : optional number;
  zipCode : optional jsstring;
  (* ML & history *)
  predictedValueNextYear : optional number;
  predictionConfidence : optional number;
  predictedRentNextYear : optional number;
  marketTrend : optional MarketTrend;
  trendConfidence : optional number;
  historicalValues : optional (list HistoricalValue);
  predictionPoints : optional (list PredictionPoint);
  (* Census data *)
  censusData : optional CensusData;
  (* AI summary *)
  aiSummary : optional jsstring
}.

Record ApiErrorResponse := { message : jsstring }.

(** [as PredictionPoint[]]: the two point interfaces have the same shape. *)
Definition as_PredictionPoint (h : HistoricalValue) : PredictionPoint :=
  {| pp_date := hv_date h; pp_value := hv_value h |}.

Definition trend_string (t : MarketTrend) : jsstring :=
  match t with
  | Increasing => lit "Increasing"
  | Decreasing => lit "Decreasing"
  | Stable => lit "Stable"
  | Unknown => lit "Unknown"
  | Error => lit "Error"
  end.

End Types.
Import Types.

(* ===================================================================== *)
(** ** [src/lib/utils.ts]                                                 *)
(* ===================================================================== *)

(** The two option bags [utils.ts] passes to [Number.prototype.toLocaleString]
    (the locale is ['en-US'] at both call sites). *)
Inductive NumberFormatOptions : Type :=
| NoOptions
| CurrencyUSD (maximumFractionDigits : number).

Module Utils.
Section Builtins.

(** The platform functions the helpers call.  Those called inside a
    [try] block are allowed to throw anything. *)
Variable Number_toLocaleString : number -> NumberFormatOptions -> completion jsstring.
(** [new Date(s).getTime()]: the time value, NaN when [s] does not parse. *)
Variable Date_getTime : jsstring -> completion number.
(** [date.toLocaleDateString('en-US', {year:'numeric', month:'short', day:'numeric'})]. *)
Variable Date_toLocaleDateString : number -> completion jsstring.
Variable String_toLowerCase : jsstring -> jsstring.

(** [maximumFractionDigits: number = 0]: a missing argument takes the default. *)
Definition default_digits (d : option number) : number :=
  match d with Some x => x | None => number_of_Z 0 end.

Definition formatCurrency (value : optional number) (maximumFractionDigits : option number)
  : completion jsstring :=
  match value with
  | Null | Undefined => ret (lit "N/A")
  | Val v =>
      catch (Number_toLocaleString v (CurrencyUSD (default_digits maximumFractionDigits)))
            (fun _ => ret (lit "N/A"))
  end.

Definition formatNumber (value : optional number) : completion jsstring :=
  match value with
  | Null | Undefined => ret (lit "N/A")
  | Val v => catch (Number_toLocaleString v NoOptions) (fun _ => ret (lit "N/A"))
  end.

Definition formatDate (dateString : optional jsstring) : completion jsstring :=
  if negb (truthy_opt truthy_string dateString) then ret (lit "N/A")
  else
    match dateString with
    | Val s =>
        catch (t <- Date_getTime s ;;
               if isNaN t then ret (lit "Invalid Date")
               else Date_toLocaleDateString t)
              (fun _ => ret (lit "Invalid Date"))
    | _ => ret (lit "N/A")
    end.

Definition trend_increasing : jsstring :=
  lit "bg-green-100 text-green-800 border-green-300 dark:bg-green-900/30 dark:text-green-300 dark:border-green-700".
Definition trend_decreasing : jsstring :=
  lit "bg-red-100 text-red-800 border-red-300 dark:bg-red-900/30 dark:text-red-300 dark:border-red-700".
Definition trend_stable : jsstring :=
  lit "bg-gray-100 text-gray-800 border-gray-300 dark:bg-gray-700/30 dark:text-gray-300 dark:border-gray-600".
Definition trend_default : jsstring :=
  lit "bg-yellow-100 text-yellow-800 border-yellow-300 dark:bg-yellow-900/30 dark:text-yellow-300 dark:border-yellow-700".

Definition getTrendColor (trend : optional jsstring) : completion jsstring :=
  match trend with
  | Val s =>
      let l := String_toLowerCase s in
      if str_eqb l (lit "increasing") then ret trend_increasing
      else if str_eqb l (lit "decreasing") then ret trend_decreasing
      else if str_eqb l (lit "stable") then ret trend_stable
      else ret trend_default
  | _ => ret trend_default
  end.

End Builtins.
End Utils.

(* ===================================================================== *)
(** ** The [en-US] number formatter                                       *)
(* ===================================================================== *)

(** [Number.prototype.toLocaleString('en-US', options)]: the digit options
    and the pattern are ECMA-402's (SetNumberFormatDigitOptions, grouping by
    three, the sign in front of the currency symbol), with the CLDR [en-US]
    symbols: [,] [.] [-] [$] [NaN] and the infinity sign.  As the engines do,
    the number is first written as its shortest decimal that reads back as
    the same binary64 (the digits of [Number::toString]), and that decimal is
    rounded to the requested fraction digits, a half going away from zero. *)
Module EnUS.

Definition floorZ (s : bool) (m : positive) (e : Z) : Z :=
  let sm := if s then Zneg m else Zpos m in
  if (0 <=? e)%Z then sm * 2 ^ e else sm / 2 ^ (- e).

Definition ceilZ (s : bool) (m : positive) (e : Z) : Z :=
  (- floorZ (negb s) m e)%Z.

(** GetNumberOption / DefaultNumberOption for a [number] argument. *)
Definition getNumberOption (v : number) (lo hi : Z) : completion Z :=
  match v with
  | S754_nan | S754_infinity _ => raise RangeError
  | S754_zero _ => if ((lo <=? 0) && (0 <=? hi))%Z then ret 0%Z else raise RangeError
  | S754_finite s m e =>
      if ((floorZ s m e <? lo) || (hi <? ceilZ s m e))%Z then raise RangeError
      else ret (floorZ s m e)
  end.

(** - The shortest decimal of a binary64 -

    For the canonical pair [(m, e)] the value, and the two midpoints to the
    neighbouring binary64s, are whole numbers of quarter units [2^(e-2)]: the
    value is [4m], the upper midpoint [4m+2], the lower midpoint [4m-2], or
    [4m-1] just above a power of two where the spacing halves.  A decimal
    reads back as the same binary64 when it lies between the midpoints, the
    midpoints themselves included when [m] is even. *)
Definition lower_midpoint (m : positive) (e : Z) : Z :=
  if (Zpos m =? 2 ^ 52)%Z && (-1074 <? e)%Z then 4 * Zpos m - 1 else 4 * Zpos m - 2.

Definition upper_midpoint (m : positive) : Z := 4 * Zpos m + 2.

(** [s * 10^p] against [x * 2^u]: both sides are multiplied out to integers,
    [s * grid_scale p u] against [x * unit_scale p u]. *)
Definition grid_scale (p u : Z) : Z := 10 ^ Z.max p 0 * 2 ^ Z.max (- u) 0.
Definition unit_scale (p u : Z) : Z := 2 ^ Z.max u 0 * 10 ^ Z.max (- p) 0.

(** The multiples of [10^p] that read back as [(m, e)]: the least and the
    greatest coefficient. *)
Definition least_coefficient (m : positive) (e p : Z) : Z :=
  let a := grid_scale p (e - 2) in
  let l := (lower_midpoint m e * unit_scale p (e - 2))%Z in
  let q := (l / a)%Z in
  if (l mod a =? 0)%Z then (if Z.even (Zpos m) then q else q + 1) else q + 1.

Definition greatest_coefficient (m : positive) (e p : Z) : Z :=
  let a := grid_scale p (e - 2) in
  let h := (upper_midpoint m * unit_scale p (e - 2))%Z in
  let q := (h / a)%Z in
  if (h mod a =? 0)%Z then (if Z.even (Zpos m) then q else q - 1) else q.

(** The multiple of [10^p] nearest to the value, a tie going to the even
    coefficient. *)
Definition nearest_coefficient (m : positive) (e p : Z) : Z :=
  let a := grid_scale p (e - 2) in
  let v := (4 * Zpos m * unit_scale p (e - 2))%Z in
  let q := (v / a)%Z in
  let r := (v mod a)%Z in
  if (2 * r <? a)%Z then q
  else if (a <? 2 * r)%Z then q + 1
  else if Z.even q then q else q + 1.

(** A [p] with [10^p] above every number below [2^k]: [k * log10 2], rounded
    up, plus one (30102/100000 < log10 2 < 30103/100000). *)
Definition decimal_ceiling (k : Z) : Z :=
  (if (0 <=? k)%Z then k * 30103 / 100000 else - ((- k) * 30102 / 100000))%Z + 1.

(** The shortest decimal is found on the coarsest grid [10^p] that has a
    point between the midpoints; on that grid it is the point nearest to the
    value.  The search goes down from a [p] with [10^p] above the upper
    midpoint, and ends at the latest on the grid of the binary unit, where
    the value itself is a point. *)
Fixpoint shortest_from (fuel : nat) (m : positive) (e p : Z) : Z * Z :=
  let lo := least_coefficient m e p in
  let hi := greatest_coefficient m e p in
  match fuel with
  | O => (nearest_coefficient m e p, p)
  | S fuel' =>
      if (lo <=? hi)%Z then (Z.max lo (Z.min hi (nearest_coefficient m e p)), p)
      else shortest_from fuel' m e (p - 1)
  end.

Definition shortest_decimal (m : positive) (e : Z) : Z * Z :=
  let top := decimal_ceiling (Z.log2 (upper_midpoint m) + 1 + (e - 2)) in
  let bottom := Z.min (e - 2) 0 in
  shortest_from (Z.to_nat (top - bottom)) m e top.

(** The integer nearest to [s * 10^(p + f)], a half going up. *)
Definition round_decimal (s p : Z) (f : N) : N :=
  let k := (p + Z.of_N f)%Z in
  if (0 <=? k)%Z then Z.to_N (s * 10 ^ k)
  else
    let den := (10 ^ (- k))%Z in
    let q := (s / den)%Z in
    let r := (s mod den)%Z in
    Z.to_N (if (den <=? 2 * r)%Z then q + 1 else q).

(** The integer nearest to [m * 2^e * 10^f], a half going up, on the exact
    binary value ([Number.prototype.toFixed] rounds this way). *)
Definition exact_round (m : positive) (e : Z) (f : N) : N :=
  let num := (Npos m * 10 ^ f)%N in
  if (0 <=? e)%Z then (num * 2 ^ Z.to_N e)%N
  else
    let den := (2 ^ Z.to_N (- e))%N in
    let q := (num / den)%N in
    let r := (num mod den)%N in
    if (den <=? 2 * r)%N then (q + 1)%N else q.

(** The magnitude [m * 2^e] in units of [10^(-f)], as the formatter rounds
    it: the shortest decimal of the binary64, rounded.  A pair that is not
    canonical stands for the binary64 it rounds to. *)
Definition scaled_round (m : positive) (e : Z) (f : N) : N :=
  match binary_normalize 53 1024 (Zpos m) e false with
  | S754_finite _ m' e' =>
      let '(s, p) := shortest_decimal m' e' in round_decimal s p f
  | _ => exact_round m e f
  end.

Fixpoint commas_rev (count : nat) (rev_digits : jsstring) : jsstring :=
  match rev_digits with
  | [] => []
  | d :: tl =>
      if Nat.eqb count 3 then 44%N :: d :: commas_rev 1 tl
      else d :: commas_rev (S count) tl
  end.

Definition group_thousands (digits : jsstring) : jsstring :=
  rev (commas_rev 0 (rev digits)).

Fixpoint strip_zeros_rev (cut : nat) (rev_frac : jsstring) : jsstring :=
  match cut, rev_frac with
  | S cut', 48%N :: tl => strip_zeros_rev cut' tl
  | _, _ => rev_frac
  end.

(** ToRawFixed on [n / 10^f]: integer digits, and the fraction digits with
    at most [f - mnfd] trailing zeros removed. *)
Definition raw_fixed (n : N) (mnfd f : nat) : jsstring * jsstring :=
  let s := decimal_digits n in
  let s := repeat 48%N (S f - length s) ++ s in
  let k := (length s - f)%nat in
  (firstn k s, rev (strip_zeros_rev (f - mnfd) (rev (skipn k s)))).

Definition render_magnitude (n : N) (mnfd f : nat) : jsstring :=
  let '(int, frac) := raw_fixed n mnfd f in
  group_thousands int ++ match frac with [] => [] | _ => lit "." ++ frac end.

Definition sign_of (x : number) : bool :=
  match x with
  | S754_zero s | S754_infinity s | S754_finite s _ _ => s
  | S754_nan => false
  end.

Definition magnitude (x : number) (mnfd f : nat) : jsstring :=
  match x with
  | S754_nan => lit "NaN"
  | S754_infinity _ => [8734%N]
  | S754_zero _ => render_magnitude 0 mnfd f
  | S754_finite _ m e => render_magnitude (scaled_round m e (N.of_nat f)) mnfd f
  end.

Definition toLocaleString (x : number) (o : NumberFormatOptions) : completion jsstring :=
  let minus := if sign_of x then lit "-" else [] in
  match o with
  | NoOptions => ret (minus ++ magnitude x 0 3)
  | CurrencyUSD d =>
      mxfd <- getNumberOption d 0 100 ;;
      let f := Z.to_nat mxfd in
      ret (minus ++ lit "$" ++ magnitude x (Nat.min 2 f) f)
  end.

End EnUS.

(* ===================================================================== *)
(** ** What [axios.get] hands back                                        *)
(* ===================================================================== *)

Module Axios.

Record AxiosResponse (T : Type) := {
  status : Z;
  data : optional T
}.
Arguments status {T} _.
Arguments data {T} _.

(** The body of a failed reply.  It is typed [ApiErrorResponse], but it comes
    off the wire and the callers read it as [data?.message]. *)
Record ErrorBody := { body_message : optional jsstring }.

Record AxiosError := {
  ae_message : jsstring;
  ae_response : option (AxiosResponse ErrorBody)
}.

(** What a [catch (err)] clause can receive. *)
Inductive Thrown : Type :=
| ThrownAxiosError (e : AxiosError)      (* axios.isAxiosError(err) *)
| ThrownError (message : jsstring)       (* err instanceof Error *)
| ThrownValue.                           (* anything else *)

Definition AxiosResult (T : Type) : Type := (Thrown + AxiosResponse T)%type.

(** [axiosError.response?.data?.message] *)
Definition response_message (e : AxiosError) : optional jsstring :=
  match ae_response e with
  | Some r => match data r with Val b => body_message b | _ => Undefined end
  | None => Undefined
  end.

(** [axiosError.response?.status] *)
Definition response_status (e : AxiosError) : option Z :=
  match ae_response e with
  | Some r => Some (status r)
  | None => None
  end.

(** [axiosError.response?.status === code] *)
Definition status_is (e : AxiosError) (code : Z) : bool :=
  match response_status e with
  | Some s => (s =? code)%Z
  | None => false
  end.

(** axios settles a reply with [validateStatus]; a reply outside 2xx rejects
    with an error that carries the reply. *)
Definition validateStatus (s : Z) : bool := ((200 <=? s) && (s <? 300))%Z.

Definition status_error (s : Z) (body : optional ErrorBody) : AxiosError :=
  {| ae_message := lit "Request failed with status code " ++ string_of_Z s;
     ae_response := Some {| status := s; data := body |} |}.

(** A timeout or a network failure rejects with an error without a reply. *)
Definition no_response_error (message : jsstring) : AxiosError :=
  {| ae_message := message; ae_response := None |}.

End Axios.
Import Axios.

(* ===================================================================== *)
(** ** [pages/api/property.ts]                                            *)
(* ===================================================================== *)

Module PropertyApi.

(** [req.query.address : string | string[] | undefined] *)
Inductive QueryValue : Type :=
| QMissing
| QString (s : jsstring)
| QArray (l : list jsstring).

Record NextApiRequest := {
  method : option jsstring;
  query_address : QueryValue
}.

Inductive ResponseBody : Type :=
| DataBody (d : PropertyData)
| MessageBody (e : ApiErrorResponse).

(** The mutable [res] object. *)
Record NextApiResponse := {
  headers : list (jsstring * list jsstring);
  statusCode : option Z;
  body : option ResponseBody
}.

(** One outbound [axios.get(url, { params: { address }, timeout })]. *)
Record BackendCall := {
  call_url : jsstring;
  call_address : jsstring;
  call_timeout : Z
}.

Record RouteState := {
  res : NextApiResponse;
  backend_calls : list BackendCall
}.

Definition fresh : RouteState :=
  {| res := {| headers := []; statusCode := None; body := None |};
     backend_calls := [] |}.

Definition Route : Type -> Type := eitherT Thrown (state RouteState).

Definition update_res (f : NextApiResponse -> NextApiResponse) : Route unit :=
  modify (fun st => {| res := f (res st); backend_calls := backend_calls st |}) ;;
  ret tt.

Definition res_setHeader (name : jsstring) (value : list jsstring) : Route unit :=
  update_res (fun r => {| headers := headers r ++ [(name, value)];
                          statusCode := statusCode r; body := body r |}).

Definition res_status (s : Z) : Route unit :=
  update_res (fun r => {| headers := headers r; statusCode := Some s; body := body r |}).

Definition res_json (b : ResponseBody) : Route unit :=
  update_res (fun r => {| headers := headers r; statusCode := statusCode r; body := Some b |}).

Definition json_message (m : jsstring) : ResponseBody :=
  MessageBody {| message := m |}.

(** [`${req.method}`] *)
Definition method_text (m : option jsstring) : jsstring :=
  match m with Some s => s | None => lit "undefined" end.

Definition method_is_GET (m : option jsstring) : bool :=
  match m with Some s => str_eqb s (lit "GET") | None => false end.

(** [status || 500] *)
Definition status_or_500 (s : option Z) : Z :=
  match s with
  | Some z => if (z =? 0)%Z then 500%Z else z
  | None => 500%Z
  end.

(** [backendMessage || axiosError.message || 'Error fetching ...'] *)
Definition relayed_message (e : AxiosError) : jsstring :=
  or_string (Val (or_string (response_message e) (ae_message e)))
            (lit "Error fetching data from backend service.").

Section Route.

(** [process.env.BACKEND_API_URL], and the backend as seen through axios. *)
Variable env_BACKEND_API_URL : optional jsstring.
Variable backend : BackendCall -> AxiosResult PropertyData.

Definition BACKEND_API_URL : jsstring :=
  or_string env_BACKEND_API_URL (lit "http://localhost:8001/property").

Definition axios_get (url address : jsstring) (timeout : Z)
  : Route (AxiosResponse PropertyData) :=
  let call := {| call_url := url; call_address := address; call_timeout := timeout |} in
  modify (fun st => {| res := res st; backend_calls := backend_calls st ++ [call] |}) ;;
  match backend call with
  | inr r => ret r
  | inl thrown => raise thrown
  end.

Definition handler (req : NextApiRequest) : Route unit :=
  (* Only allow GET requests *)
  if negb (method_is_GET (method req)) then
    res_setHeader (lit "Allow") [lit "GET"] ;;
    res_status 405 ;;
    res_json (json_message (lit "Method " ++ method_text (method req) ++ lit " Not Allowed"))
  else
    (* Validate input *)
    match query_address req with
    | QMissing                         (* !address *)
    | QArray _ =>                      (* typeof address !== 'string' *)
        res_status 400 ;;
        res_json (json_message (lit "Address query parameter is required and cannot be empty."))
    | QString address =>
        if negb (truthy_string address) || str_eqb (trim address) [] then
          res_status 400 ;;
          res_json (json_message (lit "Address query parameter is required and cannot be empty."))
        else
          catch
            (backendResponse <- axios_get BACKEND_API_URL (trim address) 15000 ;;
             match (status backendResponse =? 200)%Z, data backendResponse with
             | true, Val d =>
                 res_status 200 ;; res_json (DataBody d)
             | _, _ =>
                 res_status 500 ;;
                 res_json (json_message (lit "Received invalid response from backend service."))
             end)
            (fun error =>
               match error with
               | ThrownAxiosError axiosError =>
                   let backendMessage := response_message axiosError in
                   let status := status_or_500 (response_status axiosError) in
                   res_status status ;;
                   res_json (json_message
                     (or_string (Val (or_string backendMessage (ae_message axiosError)))
                                (lit "Error fetching data from backend service.")))
               | _ =>
                   res_status 500 ;;
                   res_json (json_message
                     (lit "An unexpected error occurred while fetching property data."))
               end)
    end.

(** The one call a valid request makes. *)
Definition the_call (a : jsstring) : BackendCall :=
  {| call_url := BACKEND_API_URL; call_address := trim a; call_timeout := 15000 |}.

(** The state of [res] and of the network once the handler has run. *)
Definition serve (req : NextApiRequest) : RouteState :=
  snd (runState (unEitherT (handler req)) fresh).

(** Whether the handler itself ended by throwing. *)
Definition handler_outcome (req : NextApiRequest) : Thrown + unit :=
  fst (runState (unEitherT (handler req)) fresh).

End Route.
End PropertyApi.

(* ===================================================================== *)
(** ** [valuehistorychart.tsx] and [PredictionChart.tsx]                  *)
(* ===================================================================== *)

(** A chart is identified with the [data] of its single series: the list of
    [[date, value]] pairs handed to ECharts.  Colours and axes depend on the
    theme only. *)
Module Charts.

Definition Series : Type := list (jsstring * number).

Definition ValueHistoryChart (data : list HistoricalValue) : Series :=
  map (fun item => (hv_date item, hv_value item)) data.

(** An array element read by index is [undefined] outside the array. *)
Definition index {A} (l : list A) (i : Z) : option A :=
  if (i <? 0)%Z then None else nth_error l (Z.to_nat i).

Definition combinedData (data : list PredictionPoint)
    (historicalData : option (list PredictionPoint)) : list (option PredictionPoint) :=
  match historicalData with
  | Some h =>
      if (0 <? Z.of_nat (length h))%Z
      then index h (Z.of_nat (length h) - 1) :: map Some data
      else map Some data
  | None => map Some data
  end.

(** [item => [item.date, item.value]]; reading a property of [undefined] throws. *)
Definition point_pair (item : option PredictionPoint) : completion (jsstring * number) :=
  match item with
  | Some p => ret (pp_date p, pp_value p)
  | None => raise TypeError
  end.

Fixpoint map_completion {A B} (f : A -> completion B) (l : list A) : completion (list B) :=
  match l with
  | [] => ret []
  | x :: tl => y <- f x ;; ys <- map_completion f tl ;; ret (y :: ys)
  end.

Definition PredictionChart (data : list PredictionPoint)
    (historicalData : option (list PredictionPoint)) : completion Series :=
  map_completion point_pair (combinedData data historicalData).

(** The series described in words: the last historical point, when there is
    one, followed by the prediction points. *)
Definition plotted_series (data : list PredictionPoint)
    (historicalData : option (list PredictionPoint)) : Series :=
  let pair := fun p => (pp_date p, pp_value p) in
  match historicalData with
  | Some (h0 :: h) => pair (last h h0) :: map pair data
  | _ => map pair data
  end.

End Charts.

(* ===================================================================== *)
(** ** [insightsdashboard.tsx]                                            *)
(* ===================================================================== *)

Module Dashboard.

(** What [CensusDataItem] receives: [value?: number | string | null]. *)
Inductive census_value : Type :=
| CNumber (n : number)
| CString (s : jsstring).

Record CensusItem := { item_label : jsstring; item_value : jsstring }.

Inductive AiBrief : Type :=
| AiMarkdown (source : jsstring)
| AiPlaceholder (text : jsstring).

Inductive Demographics : Type :=
| CensusGrid (items : list (option CensusItem))
| DemographicsPlaceholder (text : jsstring).

Inductive HistoricalSection : Type :=
| HistoricalChart (series : Charts.Series)
| HistoricalPlaceholder (text : jsstring).

Inductive ForecastSection : Type :=
| ForecastChart (series : Charts.Series)
| ForecastPlaceholder (text : jsstring).

(** The data card.  The header line and the inner text of the valuation,
    prediction and details sections are not expanded: for these three the
    record keeps whether the section is shown. *)
Record DashboardCard := {
  shows_valuation : bool;
  shows_predictions : bool;
  ai_brief : AiBrief;
  demographics_zip : jsstring;
  demographics : Demographics;
  historical : HistoricalSection;
  forecast_years : Z;
  forecast : ForecastSection;
  shows_details : bool
}.

Inductive Element : Type :=
| Skeleton                  (* the pulsing placeholder card *)
| Nothing                   (* null *)
| Card (c : DashboardCard).

Definition is_value {A} (v : optional A) : bool :=
  match v with Val _ => true | _ => false end.

(** [Object.values(censusData)] *)
Definition census_values (c : CensusData) : list (optional number) :=
  [totalPopulation c; malePopulation c; femalePopulation c; medianAge c].

(** [data.censusData?.field] *)
Definition census_field (f : CensusData -> optional number) (c : optional CensusData)
  : optional census_value :=
  match c with
  | Val c' =>
      match f c' with
      | Val n => Val (CNumber n)
      | Null => Null
      | Undefined => Undefined
      end
  | _ => Undefined
  end.

Section Render.

Variable Number_toLocaleString : number -> NumberFormatOptions -> completion jsstring.

Definition CensusDataItem (label : jsstring) (value : optional census_value)
  : completion (option CensusItem) :=
  displayValue <-
    match value with
    | Val (CNumber n) => s <- Utils.formatNumber Number_toLocaleString (Val n) ;; ret (Val s)
    | Val (CString s) => ret (Val s)
    | Null => ret Null
    | Undefined => ret Undefined
    end ;;
  match displayValue with
  | Val s =>
      if str_eqb s (lit "N/A") then ret None
      else ret (Some {| item_label := label; item_value := s |})
  | _ => ret None
  end.

Definition hasHistoricalData (data : PropertyData) : bool :=
  match historicalValues data with
  | Val l => (0 <? Z.of_nat (length l))%Z
  | _ => false
  end.

Definition hasPredictionPoints (data : PropertyData) : bool :=
  match predictionPoints data with
  | Val l => (0 <? Z.of_nat (length l))%Z
  | _ => false
  end.

Definition hasCensusData (data : PropertyData) : bool :=
  match censusData data with
  | Val c => existsb is_value (census_values c)
  | _ => false
  end.

Definition hasAiSummary (data : PropertyData) : bool :=
  match aiSummary data with
  | Val s => truthy_string s && (0 <? Z.of_nat (length s))%Z
  | _ => false
  end.

Definition hasValuation (data : PropertyData) : bool :=
  is_number (valueEstimate data) || is_number (rentEstimate data).

Definition hasPrediction (data : PropertyData) : bool :=
  is_number (predictedValueNextYear data)
  || truthy_opt (fun t => truthy_string (trend_string t)) (marketTrend data).

Definition hasDetails (data : PropertyData) : bool :=
  truthy_opt truthy_string (description data) || truthy_opt truthy_number (lotSize data).

Definition demographics_section (data : PropertyData) : completion Demographics :=
  if hasCensusData data then
    a <- CensusDataItem (lit "Total Population") (census_field totalPopulation (censusData data)) ;;
    b <- CensusDataItem (lit "Median Age") (census_field medianAge (censusData data)) ;;
    c <- CensusDataItem (lit "Male Population") (census_field malePopulation (censusData data)) ;;
    d <- CensusDataItem (lit "Female Population") (census_field femalePopulation (censusData data)) ;;
    ret (CensusGrid [a; b; c; d])
  else ret (DemographicsPlaceholder (lit "Demographic data is not available for this area.")).

Definition historical_section (data : PropertyData) : HistoricalSection :=
  match hasHistoricalData data, historicalValues data with
  | true, Val l => HistoricalChart (Charts.ValueHistoryChart l)
  | _, _ => HistoricalPlaceholder (lit "Historical value data is not available for this property.")
  end.

(** [data.historicalValues?.slice(-1) as PredictionPoint[] | undefined] *)
Definition historical_context (data : PropertyData) : option (list PredictionPoint) :=
  match historicalValues data with
  | Val l => Some (map as_PredictionPoint (Array_slice (-1) l))
  | _ => None
  end.

Definition forecast_section (data : PropertyData) : completion ForecastSection :=
  match hasPredictionPoints data, predictionPoints data with
  | true, Val l =>
      s <- Charts.PredictionChart l (historical_context data) ;;
      ret (ForecastChart s)
  | _, _ => ret (ForecastPlaceholder (lit "Value forecast chart could not be generated."))
  end.

Definition InsightsDashboard (data : option PropertyData) (isLoading : bool)
  : completion Element :=
  if isLoading then ret Skeleton
  else
    match data with
    | None => ret Nothing
    | Some data =>
        demo <- demographics_section data ;;
        fore <- forecast_section data ;;
        ret (Card {|
          shows_valuation := hasValuation data;
          shows_predictions := hasPrediction data;
          ai_brief :=
            match hasAiSummary data, aiSummary data with
            | true, Val s => AiMarkdown s
            | _, _ => AiPlaceholder (lit "AI summary could not be generated for this property.")
            end;
          demographics_zip := or_string (zipCode data) (lit "N/A");
          demographics := demo;
          historical := historical_section data;
          forecast_years :=
            match predictionPoints data with
            | Val l => Z.of_nat (length l) - 1
            | _ => 0
            end;
          forecast := fore;
          shows_details := hasDetails data
        |})
    end.

End Render.
End Dashboard.

(* ===================================================================== *)
(** ** [src/app/page.tsx]                                                 *)
(* ===================================================================== *)

Module Page.

(** The four [useState] cells of [HomePage]. *)
Record PageState := {
  propertyData : option PropertyData;
  isLoading : bool;
  error : option jsstring;
  isNotFoundError : bool
}.

Definition initial : PageState :=
  {| propertyData := None; isLoading := false; error := None; isNotFoundError := false |}.

Definition UI : Type -> Type := eitherT Thrown (state PageState).

Definition setPropertyData (v : option PropertyData) : UI unit :=
  modify (fun st => {| propertyData := v; isLoading := isLoading st;
                       error := error st; isNotFoundError := isNotFoundError st |}) ;;
  ret tt.

Definition setIsLoading (v : bool) : UI unit :=
  modify (fun st => {| propertyData := propertyData st; isLoading := v;
                       error := error st; isNotFoundError := isNotFoundError st |}) ;;
  ret tt.

Definition setError (v : option jsstring) : UI unit :=
  modify (fun st => {| propertyData := propertyData st; isLoading := isLoading st;
                       error := v; isNotFoundError := isNotFoundError st |}) ;;
  ret tt.

Definition setIsNotFoundError (v : bool) : UI unit :=
  modify (fun st => {| propertyData := propertyData st; isLoading := isLoading st;
                       error := error st; isNotFoundError := v |}) ;;
  ret tt.

(** [try { body } finally { cleanup }] *)
Definition try_finally {A} (body : UI A) (cleanup : UI unit) : UI A :=
  r <- catch (a <- body ;; ret (inr a)) (fun e => ret (inl e)) ;;
  cleanup ;;
  match r with
  | inr a => ret a
  | inl e => raise e
  end.

(** One [axios.get('/api/property', { params: { address }, timeout })]. *)
Record ApiCall := {
  api_address : jsstring;
  api_timeout : Z
}.

Definition not_found_default : jsstring :=
  lit "No data found for the specified address. Please check the address and try again.".

Inductive AlertVariant := VariantDefault | VariantDestructive.
Inductive AlertIcon := IconAlertCircle | IconTerminal.

Record Alert := {
  variant : AlertVariant;
  icon : AlertIcon;
  title : jsstring;
  alert_description : jsstring
}.

Record PageView := {
  alert : option Alert;
  dashboard : completion Dashboard.Element
}.

(** [{error && !isLoading && (<Alert ...>)}] *)
Definition error_alert (st : PageState) : option Alert :=
  match error st with
  | Some e =>
      if truthy_string e && negb (isLoading st) then
        Some {| variant := if isNotFoundError st then VariantDefault else VariantDestructive;
                icon := if isNotFoundError st then IconAlertCircle else IconTerminal;
                title := if isNotFoundError st then lit "Information" else lit "Search Failed";
                alert_description := e |}
      else None
  | None => None
  end.

Section HomePage.

(** The proxy route as seen through axios. *)
Variable api : ApiCall -> AxiosResult PropertyData.
Variable Number_toLocaleString : number -> NumberFormatOptions -> completion jsstring.

Definition axios_get (address : jsstring) (timeout : Z) : UI (AxiosResponse PropertyData) :=
  match api {| api_address := address; api_timeout := timeout |} with
  | inr r => ret r
  | inl thrown => raise thrown
  end.

Definition handleSearchSubmit (address : jsstring) : UI unit :=
  setIsLoading true ;;
  setError None ;;
  setIsNotFoundError false ;;
  setPropertyData None ;;
  try_finally
    (catch
       (response <- axios_get address 30000 ;;
        match data response with
        | Val d => setPropertyData (Some d)
        | _ => raise (ThrownError (lit "Received empty data from server."))
        end)
       (fun err =>
          setIsNotFoundError false ;;
          errorMessage <-
            match err with
            | ThrownAxiosError axiosError =>
                if status_is axiosError 404 then
                  let m := or_string (response_message axiosError) not_found_default in
                  setIsNotFoundError true ;;
                  ret m
                else
                  ret (or_string (response_message axiosError) (ae_message axiosError))
            | ThrownError message => ret message
            | ThrownValue =>
                ret (lit "An unexpected error occurred. Please try again later.")
            end ;;
          setError (Some errorMessage) ;;
          setPropertyData None))
    (setIsLoading false).

(** The React state once the search has settled. *)
Definition after_search (st : PageState) (address : jsstring) : PageState :=
  snd (runState (unEitherT (handleSearchSubmit address)) st).

Definition HomePage (st : PageState) : PageView :=
  {| alert := error_alert st;
     dashboard := Dashboard.InsightsDashboard Number_toLocaleString
                    (propertyData st) (isLoading st) |}.

End HomePage.
End Page.

(* ===================================================================== *)
(** ** Ordering of point sequences                                        *)
(* ===================================================================== *)

(** Dates are ["YYYY-MM-DD"] strings, so date order is the order of the
    strings, code unit by code unit. *)
Module Ordering.

Fixpoint str_leb (a b : jsstring) : bool :=
  match a, b with
  | [], _ => true
  | _ :: _, [] => false
  | x :: a', y :: b' => (x <? y)%N || ((x =? y)%N && str_leb a' b')
  end.

Fixpoint ascending (dates : list jsstring) : bool :=
  match dates with
  | a :: ((b :: _) as tl) => str_leb a b && ascending tl
  | _ => true
  end.

(** A sequence that is present is non-empty and ascending by date. *)
Definition well_formed {A} (date : A -> jsstring) (s : optional (list A)) : bool :=
  match s with
  | Val [] => false
  | Val l => ascending (map date l)
  | _ => true
  end.

Definition series_invariant (d : PropertyData) : bool :=
  well_formed hv_date (historicalValues d) && well_formed pp_date (predictionPoints d).

End Ordering.

(* ===================================================================== *)
(** ** Sample records                                                     *)
(* ===================================================================== *)

Module Samples.

(** A record in which every property is missing. *)
Definition blank : PropertyData :=
  {| id := Undefined; address := Undefined; formattedAddress := Undefined;
     latitude := Undefined; longitude := Undefined; bedrooms := Undefined;
     bathrooms := Undefined; squareFootage := Undefined; lotSize := Undefined;
     yearBuilt := Undefined; propertyType := Undefined; description := Undefined;
     valueEstimate := Undefined; valueEstimateLow := Undefined;
     valueEstimateHigh := Undefined; rentEstimate := Undefined;
     rentEstimateLow := Undefined; rentEstimateHigh := Undefined;
     lastSoldDate := Undefined; lastSoldPrice := Undefined; zipCode := Undefined;
     predictedValueNextYear := Undefined; predictionConfidence := Undefined;
     predictedRentNextYear := Undefined; marketTrend := Undefined;
     trendConfidence := Undefined; historicalValues := Undefined;
     predictionPoints := Undefined; censusData := Undefined; aiSummary := Undefined |}.

Definition with_series (h : optional (list HistoricalValue))
    (p : optional (list PredictionPoint)) (c : optional CensusData) : PropertyData :=
  {| id := Undefined; address := Val (lit "1 Main St"); formattedAddress := Undefined;
     latitude := Undefined; longitude := Undefined; bedrooms := Undefined;
     bathrooms := Undefined; squareFootage := Undefined; lotSize := Undefined;
     yearBuilt := Undefined; propertyType := Undefined; description := Undefined;
     valueEstimate := Undefined; valueEstimateLow := Undefined;
     valueEstimateHigh := Undefined; rentEstimate := Undefined;
     rentEstimateLow := Undefined; rentEstimateHigh := Undefined;
     lastSoldDate := Undefined; lastSoldPrice := Undefined; zipCode := Undefined;
     predictedValueNextYear := Undefined; predictionConfidence := Undefined;
     predictedRentNextYear := Undefined; marketTrend := Undefined;
     trendConfidence := Undefined; historicalValues := h;
     predictionPoints := p; censusData := c; aiSummary := Undefined |}.

Definition hv (date : string) (value : Z) : HistoricalValue :=
  {| hv_date := lit date; hv_value := number_of_Z value |}.

Definition pp (date : string) (value : Z) : PredictionPoint :=
  {| pp_date := lit date; pp_value := number_of_Z value |}.

(** The two historical points of the dashboard scenario. *)
Definition two_years : list HistoricalValue :=
  [hv "2023-01-01" 300000; hv "2024-01-01" 320000].

(** A record whose history is an empty array and whose forecast runs
    backwards in time. *)
Definition disordered : PropertyData :=
  with_series (Val []) (Val [pp "2026-01-01" 340000; pp "2025-01-01" 330000]) Undefined.

Definition GET (q : PropertyApi.QueryValue) : PropertyApi.NextApiRequest :=
  {| PropertyApi.method := Some (lit "GET"); PropertyApi.query_address := q |}.

(** A backend that answers 200 with [d], and one that never answers. *)
Definition backend_ok (d : PropertyData) : PropertyApi.BackendCall -> AxiosResult PropertyData :=
  fun _ => inr {| status := 200; data := Val d |}.

Definition backend_down : PropertyApi.BackendCall -> AxiosResult PropertyData :=
  fun _ => inl (ThrownAxiosError (no_response_error (lit "timeout of 15000ms exceeded"))).

(** A backend that answers with status [s] outside 2xx and body [b]. *)
Definition backend_status (s : Z) (b : optional ErrorBody)
  : PropertyApi.BackendCall -> AxiosResult PropertyData :=
  fun _ => inl (ThrownAxiosError (status_error s b)).

Definition api_ok (d : PropertyData) : Page.ApiCall -> AxiosResult PropertyData :=
  fun _ => inr {| status := 200; data := Val d |}.

Definition api_status (s : Z) (b : optional ErrorBody)
  : Page.ApiCall -> AxiosResult PropertyData :=
  fun _ => inl (ThrownAxiosError (status_error s b)).

(** A platform whose date functions reject every string. *)
Definition no_dates : jsstring -> completion number := fun _ => inr S754_nan.
Definition no_date_text : number -> completion jsstring := fun _ => inl RangeError.

End Samples.

(* ===================================================================== *)
(** ** [src/components/searchbar.tsx]                                     *)
(* ===================================================================== *)

Module SearchBar.

(** What submitting the form does: it always cancels the browser's own
    submission, and it may call [onSubmit]. *)
Inductive Event : Type :=
| PreventDefault
| Submit (address : jsstring).

(** [handleSubmit], for the text in the input and the [isLoading] prop. *)
Definition handleSubmit (address : jsstring) (isLoading : bool) : list Event :=
  let trimmedAddress := trim address in
  PreventDefault ::
  (if truthy_string trimmedAddress && negb isLoading then [Submit trimmedAddress] else []).

Record View := {
  input_value : jsstring;
  input_disabled : bool;
  button_disabled : bool;
  button_label : jsstring
}.

Definition render (address : jsstring) (isLoading : bool) : View :=
  {| input_value := address;
     input_disabled := isLoading;
     button_disabled := isLoading || negb (truthy_string (trim address));
     button_label := if isLoading then lit "Searching..." else lit "Search" |}.

(** The addresses handed to [onSubmit]. *)
Fixpoint submitted (events : list Event) : list jsstring :=
  match events with
  | [] => []
  | Submit a :: tl => a :: submitted tl
  | PreventDefault :: tl => submitted tl
  end.

End SearchBar.

(** [<SearchBar onSubmit={handleSearchSubmit} isLoading={isLoading} />]:
    the form of the search bar wired to the page. *)
Module SearchFlow.

Section Wiring.

Variable api : Page.ApiCall -> AxiosResult PropertyData.

Definition dispatch (st : Page.PageState) (e : SearchBar.Event) : Page.PageState :=
  match e with
  | SearchBar.Submit a => Page.after_search api st a
  | SearchBar.PreventDefault => st
  end.

(** The page state after the user submits the form holding [text]. *)
Definition submit_form (st : Page.PageState) (text : jsstring) : Page.PageState :=
  fold_left dispatch (SearchBar.handleSubmit text (Page.isLoading st)) st.

End Wiring.
End SearchFlow.

(* ===================================================================== *)
(** ** The earlier revision of [pages/api/property.ts]                    *)
(* ===================================================================== *)

(** The revision kept at the end of [types/index.ts]: the same control
    flow with shorter messages, and no fallback on axios's own message. *)
Module LegacyRoute.

Import PropertyApi.

Section Route.

Variable env_BACKEND_API_URL : optional jsstring.
Variable backend : BackendCall -> AxiosResult PropertyData.

Definition handler (req : NextApiRequest) : Route unit :=
  if negb (method_is_GET (method req)) then
    res_setHeader (lit "Allow") [lit "GET"] ;;
    res_status 405 ;;
    res_json (json_message (lit "Method " ++ method_text (method req) ++ lit " Not Allowed"))
  else
    match query_address req with
    | QMissing
    | QArray _ =>
        res_status 400 ;;
        res_json (json_message (lit "Address query parameter is required."))
    | QString address =>
        if negb (truthy_string address) || str_eqb (trim address) [] then
          res_status 400 ;;
          res_json (json_message (lit "Address query parameter is required."))
        else
          catch
            (backendResponse <-
               axios_get backend (BACKEND_API_URL env_BACKEND_API_URL) (trim address) 15000 ;;
             match (status backendResponse =? 200)%Z, data backendResponse with
             | true, Val d =>
                 res_status 200 ;; res_json (DataBody d)
             | _, _ =>
                 res_status 500 ;;
                 res_json (json_message (lit "Invalid backend response."))
             end)
            (fun error =>
               match error with
               | ThrownAxiosError axiosError =>
                   let backendMessage := response_message axiosError in
                   let status := status_or_500 (response_status axiosError) in
                   res_status status ;;
                   res_json (json_message
                     (or_string backendMessage (lit "Backend service error.")))
               | _ =>
                   res_status 500 ;;
                   res_json (json_message (lit "Unexpected error occurred."))
               end)
    end.

Definition serve (req : NextApiRequest) : RouteState :=
  snd (runState (unEitherT (handler req)) fresh).

End Route.
End LegacyRoute.

(* ===================================================================== *)
(** ** The revision of [page.tsx] that guards the dashboard               *)
(* ===================================================================== *)

(** This revision's [handleSearchSubmit] differs only in giving axios no
    timeout; its view mounts the dashboard only under
    [propertyData && !isLoading]. *)
Module GuardedPage.

Definition HomePage (tls : number -> NumberFormatOptions -> completion jsstring)
    (st : Page.PageState) : Page.PageView :=
  {| Page.alert := Page.error_alert st;
     Page.dashboard :=
       match Page.propertyData st with
       | Some d =>
           if negb (Page.isLoading st)
           then Dashboard.InsightsDashboard tls (Some d) (Page.isLoading st)
           else ret Dashboard.Nothing
       | None => ret Dashboard.Nothing
       end |}.

End GuardedPage.

(* ===================================================================== *)
(** ** [backend/services]: the Rentcast and Zillow clients                *)
(* ===================================================================== *)

Module Providers.

(** A Python [str]. *)
Definition pystr := list N.

(** A decoded JSON value; [JNull] is Python's [None]. *)
#[local] Unset Elimination Schemes.
Inductive Json : Type :=
| JNull
| JBool (b : bool)
| JNumber (n : number)
| JString (s : pystr)
| JArray (items : list Json)
| JObject (fields : list (pystr * Json)).
#[local] Set Elimination Schemes.

Inductive PyError : Type :=
| HTTPError (status_code : Z)
| ConnectionError
| JSONDecodeError
| AttributeError.

Definition PyResult (A : Type) : Type := (PyError + A)%type.

#[global] Instance Monad_PyResult : Monad PyResult := Monad_either PyError.
#[global] Instance Exception_PyResult : MonadExc PyError PyResult :=
  Exception_either PyError.

Inductive Verb := GET | POST.

(** One [requests.get] or [requests.post]; [fields] is [params] for a GET
    and the form [data] for a POST.  A header read from an unset
    environment variable is [None]. *)
Record Request := {
  verb : Verb;
  url : pystr;
  headers : list (pystr * option pystr);
  fields : list (pystr * pystr)
}.

(** A reply; [body] is [None] when the payload is not JSON. *)
Record Response := {
  status_code : Z;
  body : option Json
}.

(** [response.raise_for_status()] *)
Definition raise_for_status (r : Response) : PyResult unit :=
  if ((400 <=? status_code r) && (status_code r <? 600))%Z
  then raise (HTTPError (status_code r))
  else ret tt.

(** [response.json()] *)
Definition json (r : Response) : PyResult Json :=
  match body r with
  | Some j => ret j
  | None => raise JSONDecodeError
  end.

(** [if arg:] for an argument that is a [str] or [None]. *)
Definition given (arg : option pystr) : bool :=
  match arg with
  | Some (_ :: _) => true
  | _ => false
  end.

(** [if arg: params[key] = arg] *)
Definition set_if_given (key : string) (arg : option pystr)
    (params : list (pystr * pystr)) : list (pystr * pystr) :=
  match arg with
  | Some v => if given arg then params ++ [(lit key, v)] else params
  | None => params
  end.

(** [dict.get(key)]: the value bound last, [None] when there is none. *)
Fixpoint dict_get (key : pystr) (fields : list (pystr * Json)) : Json :=
  match fields with
  | [] => JNull
  | (k, v) :: tl =>
      if str_eqb k key && negb (existsb (fun kv => str_eqb (fst kv) key) tl)
      then v else dict_get key tl
  end.

Section Clients.

(** The network, and the two keys read from the environment. *)
Variable send : Request -> PyResult Response.
Variable RENTCAST_API_KEY : option pystr.
Variable ZILLOW_API_KEY : option pystr.

Definition RENTCAST_BASE_URL : pystr := lit "https://api.rentcast.io/v1".

Definition rentcast_request (address city state zip_code : option pystr) : Request :=
  {| verb := GET;
     url := RENTCAST_BASE_URL ++ lit "/properties";
     headers := [(lit "X-Api-Key", RENTCAST_API_KEY);
                 (lit "Accept", Some (lit "application/json"))];
     fields := set_if_given "zipCode" zip_code
                 (set_if_given "state" state
                    (set_if_given "city" city
                       (set_if_given "address" address []))) |}.

(** [rentcast_service.get_property_info] *)
Definition rentcast_get_property_info (address city state zip_code : option pystr)
  : PyResult Json :=
  response <- send (rentcast_request address city state zip_code) ;;
  raise_for_status response ;;
  json response.

Definition zillow_request (address : pystr) : Request :=
  {| verb := POST;
     url := lit "https://zillow-com1.p.rapidapi.com/resolveAddressToZpid";
     headers := [(lit "Content-Type", Some (lit "application/x-www-form-urlencoded"));
                 (lit "x-rapidapi-host", Some (lit "zillow-com1.p.rapidapi.com"));
                 (lit "x-rapidapi-key", ZILLOW_API_KEY)];
     fields := [(lit "address", address)] |}.

(** [zillow_service.get_property_info] *)
Definition zillow_get_property_info (address : pystr) : PyResult Json :=
  response <- send (zillow_request address) ;;
  raise_for_status response ;;
  data <- json response ;;
  match data with
  | JObject fields =>
      ret (JObject [(lit "zpid", dict_get (lit "zpid") fields);
                    (lit "price", dict_get (lit "price") fields);
                    (lit "address", dict_get (lit "address") fields)])
  | _ => raise AttributeError
  end.

End Clients.
End Providers.

(* ===================================================================== *)
(** ** A lower-casing for ASCII text                                      *)
(* ===================================================================== *)

Module Platform.

(** [toLowerCase] as it acts on ASCII letters; other code units are kept. *)
Definition ascii_lower (s : jsstring) : jsstring :=
  map (fun c => if ((65 <=? c) && (c <=? 90))%N then (c + 32)%N else c) s.

End Platform.

(* ===================================================================== *)
(** * Properties                                                          *)
(* ===================================================================== *)

(** ** Strings *)

Lemma str_eqb_eq (a : jsstring) : forall b, str_eqb a b = true <-> a = b.
Proof.
  induction a as [|x a IH]; intros [|y b]; simpl; split; try congruence; try discriminate.
  - intros H. apply andb_true_iff in H as [H1 H2].
    apply N.eqb_eq in H1. apply IH in H2. congruence.
  - intros H. injection H as -> ->. rewrite N.eqb_refl. simpl. now apply IH.
Qed.

Lemma str_eqb_neq (a b : jsstring) : a <> b -> str_eqb a b = false.
Proof.
  intros H. destruct (str_eqb a b) eqn:E; [|reflexivity].
  apply str_eqb_eq in E. contradiction.
Qed.

Lemma or_string_nonempty (a : optional jsstring) (b : jsstring) :
  b <> [] -> or_string a b <> [].
Proof.
  intros Hb. destruct a as [| |[|c s]]; simpl; auto. discriminate.
Qed.

Lemma or_string_val (m b : jsstring) : m <> [] -> or_string (Val m) b = m.
Proof. destruct m; simpl; congruence. Qed.

Lemma trim_nonempty_truthy (s : jsstring) : trim s <> [] -> truthy_string s = true.
Proof. destruct s; simpl; [intros H; now elim H | reflexivity]. Qed.

Lemma lit_nonempty c s : lit (String c s) <> [].
Proof. discriminate. Qed.

(** ** [utils.ts] *)

Section HelperFacts.

Variable tls : number -> NumberFormatOptions -> completion jsstring.
Variable getTime : jsstring -> completion number.
Variable dateText : number -> completion jsstring.
Variable lower : jsstring -> jsstring.





(** A date string that does not parse, or on which the platform throws,
    is shown as ["Invalid Date"]. *)
Lemma formatDate_unparseable s :
  s <> [] -> getTime s = inr S754_nan \/ (exists e, getTime s = inl e) ->
  Utils.formatDate getTime dateText (Val s) = inr (lit "Invalid Date").
Proof.
  intros Hs H. unfold Utils.formatDate. simpl.
  destruct s as [|c s]; [congruence|]. simpl.
  destruct H as [-> | [e ->]]; reflexivity.
Qed.

(** A trend whose lower-case form is none of the three known words takes
    the default style. *)
Lemma getTrendColor_unrecognised s :
  lower s <> lit "increasing" -> lower s <> lit "decreasing" -> lower s <> lit "stable" ->
  Utils.getTrendColor lower (Val s) = inr Utils.trend_default.
Proof.
  intros H1 H2 H3. unfold Utils.getTrendColor.
  rewrite !str_eqb_neq by assumption. reflexivity.
Qed.

End HelperFacts.

(** The [en-US] formatter on a few inputs: rounding of a half goes up, a
    digits argument out of range makes [toLocaleString] throw and the helper
    fall back to its placeholder, and integers are grouped by three. *)
Example formatCurrency_rounds_half_up :
  Utils.formatCurrency EnUS.toLocaleString (Val (S754_finite false 3 (-1))) None
  = inr (lit "$2").
Proof. vm_compute. reflexivity. Qed.

Example formatCurrency_digits_out_of_range :
  Utils.formatCurrency EnUS.toLocaleString (Val (number_of_Z 999)) (Some (number_of_Z 101))
  = inr (lit "N/A").
Proof. vm_compute. reflexivity. Qed.

Example formatCurrency_negative_cents :
  Utils.formatCurrency EnUS.toLocaleString (Val (number_of_Z (-1234567))) (Some (number_of_Z 2))
  = inr (lit "-$1,234,567.00").
Proof. vm_compute. reflexivity. Qed.

Example formatNumber_groups :
  Utils.formatNumber EnUS.toLocaleString (Val (number_of_Z 1234567)) = inr (lit "1,234,567").
Proof. vm_compute. reflexivity. Qed.

Example formatDate_invalid :
  Utils.formatDate Samples.no_dates Samples.no_date_text (Val (lit "soon"))
  = inr (lit "Invalid Date").
Proof. reflexivity. Qed.

(** C5. [formatCurrency(null)] and [formatCurrency(undefined)] are ["N/A"]
    (on every platform and for every digits argument), and
    [formatCurrency(1234567, 0)] is ["$1,234,567"] under the [en-US]
    formatter. *)
Theorem formatCurrency_examples :
  (forall tls d, Utils.formatCurrency tls Null d = inr (lit "N/A")) /\
  (forall tls d, Utils.formatCurrency tls Undefined d = inr (lit "N/A")) /\
  Utils.formatCurrency EnUS.toLocaleString (Val (number_of_Z 1234567)) (Some (number_of_Z 0))
    = inr (lit "$1,234,567").
Proof.
  split; [|split].
  - reflexivity.
  - reflexivity.
  - vm_compute. reflexivity.
Qed.


(** ** Charts *)

Lemma map_completion_some (l : list PredictionPoint) :
  Charts.map_completion Charts.point_pair (map Some l)
  = inr (map (fun p => (pp_date p, pp_value p)) l).
Proof.
  induction l as [|p l IH]; simpl; [reflexivity|].
  rewrite IH. reflexivity.
Qed.

Lemma last_cons {A} (h : list A) : forall x d : A, last (x :: h) d = last h x.
Proof.
  induction h as [|y h IH]; intros x d; [reflexivity|].
  change (last (x :: y :: h) d) with (last (y :: h) d).
  rewrite (IH y d), (IH y x). reflexivity.
Qed.

Lemma index_last {A} (h0 : A) (h : list A) :
  Charts.index (h0 :: h) (Z.of_nat (length (h0 :: h)) - 1) = Some (last h h0).
Proof.
  unfold Charts.index.
  replace (Z.of_nat (length (h0 :: h)) - 1)%Z with (Z.of_nat (length h))
    by (simpl length; lia).
  destruct (Z.ltb_spec (Z.of_nat (length h)) 0) as [Hneg|_]; [lia|].
  rewrite Nat2Z.id.
  revert h0. induction h as [|x h IH]; intros h0; [reflexivity|].
  simpl length. simpl nth_error. rewrite IH. f_equal. symmetry. apply last_cons.
Qed.

Lemma PredictionChart_plots (d : list PredictionPoint) (h : option (list PredictionPoint)) :
  Charts.PredictionChart d h = inr (Charts.plotted_series d h).
Proof.
  unfold Charts.PredictionChart, Charts.combinedData, Charts.plotted_series.
  destruct h as [[|h0 h]|].
  - simpl. apply map_completion_some.
  - destruct (Z.ltb_spec 0 (Z.of_nat (length (h0 :: h)))) as [_|Hle];
      [|simpl length in Hle; lia].
    rewrite index_last. simpl. rewrite map_completion_some. reflexivity.
  - apply map_completion_some.
Qed.

(** C10. The series [PredictionChart] plots is the last element of the
    historical list, when that list is given and non-empty, followed by the
    prediction points in their order, each as its [(date, value)] pair; it is
    the prediction points alone otherwise. *)
Theorem PredictionChart_series :
  forall (d : list PredictionPoint) (h : option (list PredictionPoint)),
    Charts.PredictionChart d h
    = inr (match h with
           | Some (h0 :: h') =>
               (pp_date (last h' h0), pp_value (last h' h0))
               :: map (fun p => (pp_date p, pp_value p)) d
           | _ => map (fun p => (pp_date p, pp_value p)) d
           end).
Proof.
  intros d h. rewrite PredictionChart_plots.
  unfold Charts.plotted_series. destruct h as [[|h0 h']|]; reflexivity.
Qed.


(** ** The proxy route *)

Section RouteFacts.

Import PropertyApi.

Variable env : optional jsstring.
Variable backend : BackendCall -> AxiosResult PropertyData.

Lemma method_is_GET_false (m : option jsstring) :
  m <> Some (lit "GET") -> method_is_GET m = false.
Proof.
  intros H. destruct m as [s|]; [|reflexivity]. simpl.
  apply str_eqb_neq. intros ->. now apply H.
Qed.

Lemma valid_address_passes (a : jsstring) :
  trim a <> [] -> negb (truthy_string a) || str_eqb (trim a) [] = false.
Proof.
  intros H. rewrite (trim_nonempty_truthy a H), (str_eqb_neq _ _ H). reflexivity.
Qed.

Lemma serve_rejected (req : NextApiRequest) (a : jsstring) (thrown : Thrown) :
  method req = Some (lit "GET") ->
  query_address req = QString a ->
  trim a <> [] ->
  backend (the_call env a) = inl thrown ->
  serve env backend req
  = {| res := {| headers := [];
                 statusCode := Some (match thrown with
                                     | ThrownAxiosError e => status_or_500 (response_status e)
                                     | _ => 500%Z
                                     end);
                 body := Some (json_message
                                 (match thrown with
                                  | ThrownAxiosError e => relayed_message e
                                  | _ => lit "An unexpected error occurred while fetching property data."
                                  end)) |};
       backend_calls := [the_call env a] |}.
Proof.
  intros Hm Hq Ha Hb. unfold serve, handler. rewrite Hm, Hq.
  change (negb (method_is_GET (Some (lit "GET")))) with false. cbv iota.
  rewrite (valid_address_passes a Ha). unfold axios_get.
  fold (the_call env a). rewrite Hb.
  destruct thrown as [e| |]; reflexivity.
Qed.

Lemma serve_fulfilled (req : NextApiRequest) (a : jsstring) (d : PropertyData) :
  method req = Some (lit "GET") ->
  query_address req = QString a ->
  trim a <> [] ->
  backend (the_call env a) = inr {| status := 200; data := Val d |} ->
  serve env backend req
  = {| res := {| headers := []; statusCode := Some 200%Z; body := Some (DataBody d) |};
       backend_calls := [the_call env a] |}.
Proof.
  intros Hm Hq Ha Hb. unfold serve, handler. rewrite Hm, Hq.
  change (negb (method_is_GET (Some (lit "GET")))) with false. cbv iota.
  rewrite (valid_address_passes a Ha). unfold axios_get.
  fold (the_call env a). rewrite Hb. reflexivity.
Qed.

Lemma relayed_message_nonempty (e : AxiosError) : relayed_message e <> [].
Proof. unfold relayed_message. apply or_string_nonempty. discriminate. Qed.

Lemma relayed_message_backend (e : AxiosError) (m : jsstring) :
  response_message e = Val m -> m <> [] -> relayed_message e = m.
Proof.
  intros H Hm. unfold relayed_message. rewrite H.
  rewrite (or_string_val m _ Hm). apply or_string_val, Hm.
Qed.

End RouteFacts.

(** C1. A GET request whose [address] is missing, is an array, or trims to
    the empty string is answered 400 with a message, and the backend is not
    called. *)
Theorem invalid_address_rejected :
  forall env backend (req : PropertyApi.NextApiRequest),
    PropertyApi.method req = Some (lit "GET") ->
    (PropertyApi.query_address req = PropertyApi.QMissing \/
     (exists l, PropertyApi.query_address req = PropertyApi.QArray l) \/
     (exists s, PropertyApi.query_address req = PropertyApi.QString s /\ trim s = [])) ->
    let st := PropertyApi.serve env backend req in
    PropertyApi.statusCode (PropertyApi.res st) = Some 400%Z /\
    (exists m, PropertyApi.body (PropertyApi.res st)
               = Some (PropertyApi.MessageBody {| message := m |}) /\ m <> []) /\
    PropertyApi.backend_calls st = [] /\
    PropertyApi.handler_outcome env backend req = inr tt.
Proof.
  intros env backend req Hm Hq.
  unfold PropertyApi.serve, PropertyApi.handler_outcome, PropertyApi.handler.
  rewrite Hm.
  change (negb (PropertyApi.method_is_GET (Some (lit "GET")))) with false. cbv iota.
  destruct Hq as [-> | [[l ->] | [s [-> Ht]]]].
  - cbn. split; [reflexivity|]. split; [eexists; split; [reflexivity|discriminate]|]. split; reflexivity.
  - cbn. split; [reflexivity|]. split; [eexists; split; [reflexivity|discriminate]|]. split; reflexivity.
  - rewrite Ht. change (str_eqb [] []) with true. rewrite orb_true_r.
    cbn. split; [reflexivity|]. split; [eexists; split; [reflexivity|discriminate]|]. split; reflexivity.
Qed.

Lemma invalid_address_rejected_witness :
  let st := PropertyApi.serve Undefined Samples.backend_down
              (Samples.GET (PropertyApi.QString (lit "   "))) in
  PropertyApi.statusCode (PropertyApi.res st) = Some 400%Z /\
  (exists m, PropertyApi.body (PropertyApi.res st)
             = Some (PropertyApi.MessageBody {| message := m |}) /\ m <> []) /\
  PropertyApi.backend_calls st = [] /\
  PropertyApi.handler_outcome Undefined Samples.backend_down
    (Samples.GET (PropertyApi.QString (lit "   "))) = inr tt.
Proof.
  apply (invalid_address_rejected Undefined Samples.backend_down
           (Samples.GET (PropertyApi.QString (lit "   ")))).
  - reflexivity.
  - right; right. exists (lit "   "). split; reflexivity.
Defined.

(** C4. A request whose method is not GET is answered 405 with a message
    and an [Allow: GET] header, and the backend is not called. *)
Theorem other_methods_rejected :
  forall env backend (req : PropertyApi.NextApiRequest),
    PropertyApi.method req <> Some (lit "GET") ->
    let st := PropertyApi.serve env backend req in
    PropertyApi.statusCode (PropertyApi.res st) = Some 405%Z /\
    PropertyApi.body (PropertyApi.res st)
      = Some (PropertyApi.MessageBody
                {| message := lit "Method " ++ PropertyApi.method_text (PropertyApi.method req)
                                ++ lit " Not Allowed" |}) /\
    PropertyApi.headers (PropertyApi.res st) = [(lit "Allow", [lit "GET"])] /\
    PropertyApi.backend_calls st = [] /\
    PropertyApi.handler_outcome env backend req = inr tt.
Proof.
  intros env backend req Hm.
  unfold PropertyApi.serve, PropertyApi.handler_outcome, PropertyApi.handler.
  rewrite (method_is_GET_false _ Hm). cbn. repeat split.
Qed.

Lemma other_methods_rejected_witness :
  let req := {| PropertyApi.method := Some (lit "POST");
                PropertyApi.query_address := PropertyApi.QString (lit "1 Main St") |} in
  let st := PropertyApi.serve Undefined (Samples.backend_ok Samples.blank) req in
  PropertyApi.statusCode (PropertyApi.res st) = Some 405%Z /\
  PropertyApi.body (PropertyApi.res st)
    = Some (PropertyApi.MessageBody {| message := lit "Method POST Not Allowed" |}) /\
  PropertyApi.headers (PropertyApi.res st) = [(lit "Allow", [lit "GET"])] /\
  PropertyApi.backend_calls st = [] /\
  PropertyApi.handler_outcome Undefined (Samples.backend_ok Samples.blank) req = inr tt.
Proof.
  apply (other_methods_rejected Undefined (Samples.backend_ok Samples.blank)
           {| PropertyApi.method := Some (lit "POST");
              PropertyApi.query_address := PropertyApi.QString (lit "1 Main St") |}).
  discriminate.
Defined.

(** C3, as worded, at a reply that carries a status but no message: the
    wording sends such a reply to the "otherwise" case, status 500; the route
    answers with the backend's own status, 503. *)
Lemma status_relayed_without_message :
  let e := status_error 503 Undefined in
  let st := PropertyApi.serve Undefined (Samples.backend_status 503 Undefined)
              (Samples.GET (PropertyApi.QString (lit "1 Main St"))) in
  response_message e = Undefined /\
  PropertyApi.statusCode (PropertyApi.res st) = Some 503%Z /\
  PropertyApi.statusCode (PropertyApi.res st) <> Some 500%Z /\
  PropertyApi.body (PropertyApi.res st)
    = Some (PropertyApi.MessageBody {| message := lit "Request failed with status code 503" |}).
Proof.
  vm_compute. repeat split. discriminate.
Qed.

(** C3, amended. When the backend call of a valid request rejects, status
    and message are chosen independently.  The status is the reply's status
    whenever there is a reply, and 500 when there is none.  The message is
    the reply's message when it has a non-empty one; it is never empty.  A
    thrown value that is not an axios error gives 500 and a fixed message. *)
Theorem backend_failure_relayed :
  forall env backend (req : PropertyApi.NextApiRequest) (a : jsstring) (thrown : Thrown),
    PropertyApi.method req = Some (lit "GET") ->
    PropertyApi.query_address req = PropertyApi.QString a ->
    trim a <> [] ->
    backend (PropertyApi.the_call env a) = inl thrown ->
    let st := PropertyApi.serve env backend req in
    PropertyApi.backend_calls st = [PropertyApi.the_call env a] /\
    exists s m,
      PropertyApi.statusCode (PropertyApi.res st) = Some s /\
      PropertyApi.body (PropertyApi.res st) = Some (PropertyApi.MessageBody {| message := m |}) /\
      m <> [] /\
      match thrown with
      | ThrownAxiosError e =>
          (forall r, ae_response e = Some r -> status r <> 0%Z -> s = status r) /\
          (ae_response e = None -> s = 500%Z) /\
          (forall bm, response_message e = Val bm -> bm <> [] -> m = bm) /\
          (response_message e = Undefined \/ response_message e = Null
             \/ response_message e = Val [] ->
           m = or_string (Val (ae_message e)) (lit "Error fetching data from backend service."))
      | _ =>
          s = 500%Z /\ m = lit "An unexpected error occurred while fetching property data."
      end.
Proof.
  intros env backend req a thrown Hm Hq Ha Hb. cbv zeta.
  rewrite (serve_rejected env backend req a thrown Hm Hq Ha Hb). cbn [PropertyApi.res
    PropertyApi.backend_calls PropertyApi.statusCode PropertyApi.body].
  split; [reflexivity|].
  do 2 eexists. split; [reflexivity|]. split; [reflexivity|].
  destruct thrown as [e| |].
  - split; [apply relayed_message_nonempty|].
    split; [|split; [|split]].
    + intros r Hr Hs. unfold response_status. rewrite Hr. simpl.
      destruct (Z.eqb_spec (status r) 0); congruence.
    + intros Hr. unfold response_status. rewrite Hr. reflexivity.
    + intros bm Hbm Hne. apply relayed_message_backend; assumption.
    + intros H. unfold PropertyApi.relayed_message.
      destruct H as [-> | [-> | ->]]; reflexivity.
  - split; [discriminate|]. split; reflexivity.
  - split; [discriminate|]. split; reflexivity.
Qed.

Lemma backend_failure_relayed_witness :
  let e := status_error 404 (Val {| body_message := Val (lit "No property found.") |}) in
  let req := Samples.GET (PropertyApi.QString (lit " 1 Main St ")) in
  let st := PropertyApi.serve Undefined (fun _ => inl (ThrownAxiosError e)) req in
  PropertyApi.backend_calls st = [PropertyApi.the_call Undefined (lit " 1 Main St ")] /\
  exists s m,
    PropertyApi.statusCode (PropertyApi.res st) = Some s /\
    PropertyApi.body (PropertyApi.res st) = Some (PropertyApi.MessageBody {| message := m |}) /\
    m <> [] /\
    (forall r, ae_response e = Some r -> status r <> 0%Z -> s = status r) /\
    (ae_response e = None -> s = 500%Z) /\
    (forall bm, response_message e = Val bm -> bm <> [] -> m = bm) /\
    (response_message e = Undefined \/ response_message e = Null
       \/ response_message e = Val [] ->
     m = or_string (Val (ae_message e)) (lit "Error fetching data from backend service.")).
Proof.
  apply (backend_failure_relayed Undefined
           (fun _ => inl (ThrownAxiosError
              (status_error 404 (Val {| body_message := Val (lit "No property found.") |}))))
           (Samples.GET (PropertyApi.QString (lit " 1 Main St "))) (lit " 1 Main St ")
           (ThrownAxiosError
              (status_error 404 (Val {| body_message := Val (lit "No property found.") |})))).
  - reflexivity.
  - reflexivity.
  - vm_compute. discriminate.
  - reflexivity.
Defined.

(** ** The dashboard *)

Section DashboardFacts.

Import Dashboard.

Variable tls : number -> NumberFormatOptions -> completion jsstring.

Lemma CensusDataItem_returns label v : exists r, CensusDataItem tls label v = inr r.
Proof.
  unfold CensusDataItem.
  destruct v as [| |[n|s]]; simpl; eauto.
  - destruct (tls n NoOptions) as [e|s]; cbn.
    + eauto.
    + match goal with |- context [if ?b then _ else _] => destruct b end; eauto.
  - match goal with |- context [if ?b then _ else _] => destruct b end; eauto.
Qed.

Lemma demographics_section_returns d :
  exists demo, demographics_section tls d = inr demo /\
    (hasCensusData d = false ->
     demo = DemographicsPlaceholder (lit "Demographic data is not available for this area.")).
Proof.
  unfold demographics_section.
  destruct (hasCensusData d).
  - destruct (CensusDataItem_returns (lit "Total Population")
                (census_field totalPopulation (censusData d))) as [a ->].
    destruct (CensusDataItem_returns (lit "Median Age")
                (census_field medianAge (censusData d))) as [b ->].
    destruct (CensusDataItem_returns (lit "Male Population")
                (census_field malePopulation (censusData d))) as [c ->].
    destruct (CensusDataItem_returns (lit "Female Population")
                (census_field femalePopulation (censusData d))) as [e ->].
    eexists. split; [reflexivity|discriminate].
  - eexists. split; [reflexivity|reflexivity].
Qed.

Lemma historical_section_spec d :
  historical_section d
  = match historicalValues d with
    | Val (h :: l) =>
        HistoricalChart (map (fun v => (hv_date v, hv_value v)) (h :: l))
    | _ => HistoricalPlaceholder (lit "Historical value data is not available for this property.")
    end.
Proof.
  unfold historical_section, hasHistoricalData.
  destruct (historicalValues d) as [| |[|h l]]; reflexivity.
Qed.

Lemma skipn_last {A} (l : list A) : forall h, skipn (length l) (h :: l) = [last l h].
Proof.
  induction l as [|x l IH]; intros h; [reflexivity|].
  simpl length. change (skipn (S (length l)) (h :: x :: l)) with (skipn (length l) (x :: l)).
  rewrite IH. f_equal. symmetry. apply last_cons.
Qed.

Lemma slice_last {A} (h : A) (l : list A) : Array_slice (-1) (h :: l) = [last l h].
Proof.
  unfold Array_slice.
  change (-1 <? 0)%Z with true. cbv iota.
  replace (Z.to_nat (Z.max (Z.of_nat (length (h :: l)) + -1) 0)) with (length l)
    by (simpl length; lia).
  apply skipn_last.
Qed.

(** The point that joins the two charts: the last historical value. *)
Lemma forecast_section_spec d :
  forecast_section d
  = inr match predictionPoints d with
        | Val (p :: l) =>
            ForecastChart
              (match historicalValues d with
               | Val (h :: hs) => [(hv_date (last hs h), hv_value (last hs h))]
               | _ => []
               end ++ map (fun q => (pp_date q, pp_value q)) (p :: l))
        | _ => ForecastPlaceholder (lit "Value forecast chart could not be generated.")
        end.
Proof.
  unfold forecast_section, hasPredictionPoints, historical_context.
  destruct (predictionPoints d) as [| |[|p l]]; try reflexivity.
  change (0 <? Z.of_nat (length (p :: l)))%Z with (0 <? Z.pos (Pos.of_succ_nat (length l)))%Z.
  change (0 <? Z.pos (Pos.of_succ_nat (length l)))%Z with true. cbv iota.
  rewrite PredictionChart_plots. unfold Charts.plotted_series.
  destruct (historicalValues d) as [| |[|h hs]]; try reflexivity.
  rewrite slice_last. reflexivity.
Qed.

Lemma InsightsDashboard_card d :
  exists c, InsightsDashboard tls (Some d) false = inr (Card c) /\
    demographics_section tls d = inr (demographics c) /\
    historical c = historical_section d /\
    forecast_section d = inr (forecast c).
Proof.
  unfold InsightsDashboard.
  destruct (demographics_section_returns d) as [demo [Hd _]].
  rewrite Hd, (forecast_section_spec d). simpl.
  eexists. split; [reflexivity|]. simpl. repeat split.
Qed.

End DashboardFacts.

(** C7. With the two historical points of 2023 and 2024 and no prediction
    points, the data card shows the historical chart with exactly those two
    points and the forecast placeholder. *)
Theorem two_point_history_rendered :
  forall tls (d : PropertyData),
    historicalValues d = Val Samples.two_years ->
    (predictionPoints d = Undefined \/ predictionPoints d = Null) ->
    exists c,
      Dashboard.InsightsDashboard tls (Some d) false = inr (Dashboard.Card c) /\
      Dashboard.historical c
        = Dashboard.HistoricalChart
            [(lit "2023-01-01", number_of_Z 300000); (lit "2024-01-01", number_of_Z 320000)] /\
      Dashboard.forecast c
        = Dashboard.ForecastPlaceholder (lit "Value forecast chart could not be generated.").
Proof.
  intros tls d Hh Hp.
  destruct (InsightsDashboard_card tls d) as [c [Hc [_ [Hhist Hfore]]]].
  exists c. split; [exact Hc|]. split.
  - rewrite Hhist, historical_section_spec, Hh. reflexivity.
  - rewrite forecast_section_spec in Hfore.
    destruct Hp as [Hp|Hp]; rewrite Hp in Hfore; congruence.
Qed.

Lemma two_point_history_rendered_witness :
  exists c,
    Dashboard.InsightsDashboard EnUS.toLocaleString
      (Some (Samples.with_series (Val Samples.two_years) Undefined Undefined)) false
      = inr (Dashboard.Card c) /\
    Dashboard.historical c
      = Dashboard.HistoricalChart
          [(lit "2023-01-01", number_of_Z 300000); (lit "2024-01-01", number_of_Z 320000)] /\
    Dashboard.forecast c
      = Dashboard.ForecastPlaceholder (lit "Value forecast chart could not be generated.").
Proof.
  apply (two_point_history_rendered EnUS.toLocaleString
           (Samples.with_series (Val Samples.two_years) Undefined Undefined)).
  - reflexivity.
  - left. reflexivity.
Defined.

(** C8. Without [censusData] the Demographics section is its placeholder
    text, so it holds no census item. *)
Theorem missing_census_placeholder :
  forall tls (d : PropertyData),
    (censusData d = Undefined \/ censusData d = Null) ->
    exists c,
      Dashboard.InsightsDashboard tls (Some d) false = inr (Dashboard.Card c) /\
      Dashboard.demographics c
        = Dashboard.DemographicsPlaceholder
            (lit "Demographic data is not available for this area.") /\
      (forall items, Dashboard.demographics c <> Dashboard.CensusGrid items).
Proof.
  intros tls d Hc.
  destruct (InsightsDashboard_card tls d) as [c [Hcard [Hdemo _]]].
  destruct (demographics_section_returns tls d) as [demo [Hd Hplace]].
  assert (Hno : Dashboard.hasCensusData d = false).
  { unfold Dashboard.hasCensusData. destruct Hc as [-> | ->]; reflexivity. }
  assert (E : Dashboard.demographics c
              = Dashboard.DemographicsPlaceholder
                  (lit "Demographic data is not available for this area.")).
  { rewrite <- (Hplace Hno). congruence. }
  exists c. split; [exact Hcard|]. split; [exact E|].
  intros items. rewrite E. discriminate.
Qed.

Lemma missing_census_placeholder_witness :
  exists c,
    Dashboard.InsightsDashboard EnUS.toLocaleString (Some Samples.blank) false
      = inr (Dashboard.Card c) /\
    Dashboard.demographics c
      = Dashboard.DemographicsPlaceholder
          (lit "Demographic data is not available for this area.") /\
    (forall items, Dashboard.demographics c <> Dashboard.CensusGrid items).
Proof.
  apply (missing_census_placeholder EnUS.toLocaleString Samples.blank).
  left. reflexivity.
Defined.

(** C9, as worded, at a record whose history is empty and whose forecast
    runs backwards: the proxy relays it unchanged, the page stores it, and
    the dashboard shows it, plotting the forecast in the order received. *)
Lemma disordered_record_displayed :
  let d := Samples.disordered in
  let proxy := PropertyApi.serve Undefined (Samples.backend_ok d)
                 (Samples.GET (PropertyApi.QString (lit "1 Main St"))) in
  let st := Page.after_search (Samples.api_ok d) Page.initial (lit "1 Main St") in
  Ordering.series_invariant d = false /\
  PropertyApi.statusCode (PropertyApi.res proxy) = Some 200%Z /\
  PropertyApi.body (PropertyApi.res proxy) = Some (PropertyApi.DataBody d) /\
  Page.propertyData st = Some d /\
  Page.alert (Page.HomePage EnUS.toLocaleString st) = None /\
  exists c,
    Page.dashboard (Page.HomePage EnUS.toLocaleString st) = inr (Dashboard.Card c) /\
    Dashboard.historical c
      = Dashboard.HistoricalPlaceholder
          (lit "Historical value data is not available for this property.") /\
    Dashboard.forecast c
      = Dashboard.ForecastChart
          [(lit "2026-01-01", number_of_Z 340000); (lit "2025-01-01", number_of_Z 330000)].
Proof.
  cbv zeta. repeat (split; [vm_compute; reflexivity|]).
  eexists. split; [vm_compute; reflexivity|]. split; reflexivity.
Qed.

(** C9, amended. The dashboard charts a sequence exactly when it is present
    and non-empty, and shows the section's placeholder otherwise; the points
    charted are the points received, in the order received (the forecast
    chart starts from the last historical point when there is one). *)
Theorem series_charted_as_received :
  forall tls (d : PropertyData),
  exists c,
    Dashboard.InsightsDashboard tls (Some d) false = inr (Dashboard.Card c) /\
    Dashboard.historical c
      = match historicalValues d with
        | Val (h :: l) =>
            Dashboard.HistoricalChart (map (fun v => (hv_date v, hv_value v)) (h :: l))
        | _ => Dashboard.HistoricalPlaceholder
                 (lit "Historical value data is not available for this property.")
        end /\
    Dashboard.forecast c
      = match predictionPoints d with
        | Val (p :: l) =>
            Dashboard.ForecastChart
              (match historicalValues d with
               | Val (h :: hs) => [(hv_date (last hs h), hv_value (last hs h))]
               | _ => []
               end ++ map (fun q => (pp_date q, pp_value q)) (p :: l))
        | _ => Dashboard.ForecastPlaceholder
                 (lit "Value forecast chart could not be generated.")
        end.
Proof.
  intros tls d.
  destruct (InsightsDashboard_card tls d) as [c [Hc [_ [Hh Hf]]]].
  exists c. split; [exact Hc|]. split.
  - rewrite Hh. apply historical_section_spec.
  - rewrite forecast_section_spec in Hf. congruence.
Qed.

(** ** The page *)

Lemma truthy_nonempty (m : jsstring) : m <> [] -> truthy_string m = true.
Proof. destruct m; [congruence|reflexivity]. Qed.

Lemma after_search_status_error api st0 address s body :
  api {| Page.api_address := address; Page.api_timeout := 30000 |}
    = inl (ThrownAxiosError (status_error s body)) ->
  Page.after_search api st0 address
  = {| Page.propertyData := None;
       Page.isLoading := false;
       Page.error :=
         Some (or_string (response_message (status_error s body))
                 (if (s =? 404)%Z then Page.not_found_default
                  else ae_message (status_error s body)));
       Page.isNotFoundError := (s =? 404)%Z |}.
Proof.
  intros H. unfold Page.after_search, Page.handleSearchSubmit, Page.axios_get.
  rewrite H. cbn.
  destruct (s =? 404)%Z; reflexivity.
Qed.

(** C2. When the search is answered with a failure status, the page ends
    with no data and not loading.  On 404 it stores the reply's message (the
    not-found default when the reply has none), raises its not-found flag and
    shows the informational alert; on any other failure status it stores the
    reply's message (axios's own otherwise), leaves the flag down and shows
    the destructive alert. *)
Theorem search_failure_alert :
  forall api tls st0 address (s : Z) (body : optional ErrorBody),
    validateStatus s = false ->
    api {| Page.api_address := address; Page.api_timeout := 30000 |}
      = inl (ThrownAxiosError (status_error s body)) ->
    let supplied := match body with Val b => body_message b | _ => Undefined end in
    let st := Page.after_search api st0 address in
    let view := Page.HomePage tls st in
    Page.propertyData st = None /\ Page.isLoading st = false /\
    Page.dashboard view = inr Dashboard.Nothing /\
    (s = 404%Z ->
       let m := or_string supplied Page.not_found_default in
       Page.error st = Some m /\ Page.isNotFoundError st = true /\
       Page.alert view
         = Some {| Page.variant := Page.VariantDefault; Page.icon := Page.IconAlertCircle;
                   Page.title := lit "Information"; Page.alert_description := m |}) /\
    (s <> 404%Z ->
       let m := or_string supplied (lit "Request failed with status code " ++ string_of_Z s) in
       Page.error st = Some m /\ Page.isNotFoundError st = false /\
       Page.alert view
         = Some {| Page.variant := Page.VariantDestructive; Page.icon := Page.IconTerminal;
                   Page.title := lit "Search Failed"; Page.alert_description := m |}).
Proof.
  intros api tls st0 address s body _ H. cbv zeta.
  rewrite (after_search_status_error api st0 address s body H).
  unfold Page.HomePage, Page.error_alert.
  cbn [Page.propertyData Page.isLoading Page.error Page.isNotFoundError
       Page.alert Page.dashboard].
  change (response_message (status_error s body))
    with (match body with Val b => body_message b | _ => Undefined end).
  change (ae_message (status_error s body))
    with (lit "Request failed with status code " ++ string_of_Z s).
  repeat (split; [reflexivity|]).
  split; intros Hs.
  - subst s. change (404 =? 404)%Z with true. cbv iota.
    assert (Hd : Page.not_found_default <> []) by discriminate.
    rewrite (truthy_nonempty _ (or_string_nonempty _ _ Hd)).
    repeat split.
  - apply Z.eqb_neq in Hs. rewrite Hs.
    assert (Hne : lit "Request failed with status code " ++ string_of_Z s <> [])
      by discriminate.
    rewrite (truthy_nonempty _ (or_string_nonempty _ _ Hne)).
    repeat split.
Qed.

Lemma search_failure_alert_witness :
  let body := Val {| body_message := Val (lit "No property found.") |} in
  let st := Page.after_search (Samples.api_status 404 body) Page.initial (lit "1 Main St") in
  let view := Page.HomePage EnUS.toLocaleString st in
  Page.propertyData st = None /\ Page.isLoading st = false /\
  Page.dashboard view = inr Dashboard.Nothing /\
  (404%Z = 404%Z ->
     let m := or_string (Val (lit "No property found.")) Page.not_found_default in
     Page.error st = Some m /\ Page.isNotFoundError st = true /\
     Page.alert view
       = Some {| Page.variant := Page.VariantDefault; Page.icon := Page.IconAlertCircle;
                 Page.title := lit "Information"; Page.alert_description := m |}) /\
  (404%Z <> 404%Z ->
     let m := or_string (Val (lit "No property found."))
                (lit "Request failed with status code " ++ string_of_Z 404) in
     Page.error st = Some m /\ Page.isNotFoundError st = false /\
     Page.alert view
       = Some {| Page.variant := Page.VariantDestructive; Page.icon := Page.IconTerminal;
                 Page.title := lit "Search Failed"; Page.alert_description := m |}).
Proof.
  apply (search_failure_alert
           (Samples.api_status 404 (Val {| body_message := Val (lit "No property found.") |}))
           EnUS.toLocaleString Page.initial (lit "1 Main St") 404
           (Val {| body_message := Val (lit "No property found.") |})).
  - reflexivity.
  - reflexivity.
Defined.

(* ===================================================================== *)
(** * Further properties of the sources                                   *)
(* ===================================================================== *)

(** ** [trim] *)

Lemma trimStart_suffix (s : jsstring) :
  exists p, s = p ++ trimStart s /\ forallb is_white_space p = true.
Proof.
  induction s as [|c s [p [IH Hp]]].
  - exists []. split; reflexivity.
  - simpl. destruct (is_white_space c) eqn:E.
    + exists (c :: p). simpl. rewrite E, Hp. split; [congruence|reflexivity].
    + exists []. split; reflexivity.
Qed.

Lemma trimStart_head (s : jsstring) c t :
  trimStart s = c :: t -> is_white_space c = false.
Proof.
  induction s as [|x s IH]; simpl; [discriminate|].
  destruct (is_white_space x) eqn:E; [exact IH|].
  intros H. injection H as -> _. exact E.
Qed.

Lemma trimStart_clean (s : jsstring) :
  (forall c, hd_error s = Some c -> is_white_space c = false) -> trimStart s = s.
Proof.
  destruct s as [|c s]; [reflexivity|]. intros H. simpl.
  rewrite (H c eq_refl). reflexivity.
Qed.

Lemma trimEnd_prefix (s : jsstring) : exists q, s = trimEnd s ++ q.
Proof.
  unfold trimEnd. destruct (trimStart_suffix (rev s)) as [p [H _]].
  exists (rev p). rewrite <- rev_app_distr, <- H. symmetry. apply rev_involutive.
Qed.

Lemma trimEnd_last (s : jsstring) c :
  hd_error (rev (trimEnd s)) = Some c -> is_white_space c = false.
Proof.
  unfold trimEnd. rewrite rev_involutive.
  destruct (trimStart (rev s)) as [|x t] eqn:E; simpl; [discriminate|].
  intros H. injection H as <-. exact (trimStart_head _ _ _ E).
Qed.

Lemma trim_first (s : jsstring) c :
  hd_error (trim s) = Some c -> is_white_space c = false.
Proof.
  unfold trim. destruct (trimEnd_prefix (trimStart s)) as [q Hq].
  destruct (trimEnd (trimStart s)) as [|x t]; simpl; [discriminate|].
  intros H. injection H as <-.
  destruct (trimStart s) as [|y u] eqn:E; [discriminate|].
  simpl in Hq. injection Hq as -> _. exact (trimStart_head _ _ _ E).
Qed.

Lemma trim_last (s : jsstring) c :
  hd_error (rev (trim s)) = Some c -> is_white_space c = false.
Proof. unfold trim. apply trimEnd_last. Qed.

Lemma trim_idempotent (s : jsstring) : trim (trim s) = trim s.
Proof.
  unfold trim at 1.
  rewrite (trimStart_clean (trim s) (trim_first s)).
  unfold trimEnd.
  rewrite (trimStart_clean (rev (trim s)) (trim_last s)).
  apply rev_involutive.
Qed.

(** ** The proxy route, on every request *)

Lemma method_is_GET_true (m : option jsstring) :
  PropertyApi.method_is_GET m = true -> m = Some (lit "GET").
Proof.
  destruct m as [s|]; simpl; [|discriminate].
  intros H. apply str_eqb_eq in H. now subst.
Qed.

Lemma address_check_true (a : jsstring) :
  negb (truthy_string a) || str_eqb (trim a) [] = true -> trim a = [].
Proof.
  destruct a as [|c a]; [reflexivity|]. simpl negb. rewrite orb_false_l.
  apply str_eqb_eq.
Qed.

Lemma address_check_false (a : jsstring) :
  negb (truthy_string a) || str_eqb (trim a) [] = false -> trim a <> [].
Proof.
  intros H E. rewrite E in H. change (str_eqb [] []) with true in H.
  rewrite orb_true_r in H. discriminate.
Qed.

(** Case analysis on a request as the handler performs it: the method, the
    shape of [address], the emptiness test, then the backend's answer. *)
Ltac route_cases env backend req :=
  unfold PropertyApi.serve, PropertyApi.handler_outcome, PropertyApi.handler;
  let Hm := fresh "Hm" in
  destruct (PropertyApi.method_is_GET (PropertyApi.method req)) eqn:Hm;
  cbv beta iota delta [negb];
  [ let Hq := fresh "Hq" in
    destruct (PropertyApi.query_address req) as [|a|l] eqn:Hq;
    [ | let Ha := fresh "Ha" in
        destruct (truthy_string a) eqn:Ht;
        cbv beta iota delta [orb];
        [ destruct (str_eqb (trim a) []) eqn:Ha;
          [ | unfold PropertyApi.axios_get;
              fold (PropertyApi.the_call env a);
              let Hb := fresh "Hb" in
              destruct (backend (PropertyApi.the_call env a)) as [[e| |]|[s [| |d]]] eqn:Hb;
              cbn -[or_string trim];
              try match goal with
                  | |- context [(?z =? 200)%Z] =>
                      let Hs := fresh "Hs" in
                      destruct (Z.eqb_spec z 200) as [Hs|Hs]; [try subst z|]
                  end ]
        | ]
      | ]
  | ].

(** X1. A backend call that is answered: the reply's data is relayed as it
    is, with status 200, when the reply has status 200 and carries data;
    any other answered call (another 2xx status, or no data) becomes a 500
    with a fixed message. *)
Theorem answered_call_relayed :
  forall env backend (req : PropertyApi.NextApiRequest) (a : jsstring)
         (r : AxiosResponse PropertyData),
    PropertyApi.method req = Some (lit "GET") ->
    PropertyApi.query_address req = PropertyApi.QString a ->
    trim a <> [] ->
    backend (PropertyApi.the_call env a) = inr r ->
    let st := PropertyApi.serve env backend req in
    PropertyApi.backend_calls st = [PropertyApi.the_call env a] /\
    PropertyApi.headers (PropertyApi.res st) = [] /\
    (forall d, status r = 200%Z -> data r = Val d ->
       PropertyApi.statusCode (PropertyApi.res st) = Some 200%Z /\
       PropertyApi.body (PropertyApi.res st) = Some (PropertyApi.DataBody d)) /\
    (status r <> 200%Z \/ data r = Undefined \/ data r = Null ->
       PropertyApi.statusCode (PropertyApi.res st) = Some 500%Z /\
       PropertyApi.body (PropertyApi.res st)
         = Some (PropertyApi.MessageBody
                   {| message := lit "Received invalid response from backend service." |})).
Proof.
  intros env backend req a r Hm Hq Ha Hb. cbv zeta.
  unfold PropertyApi.serve, PropertyApi.handler. rewrite Hm, Hq.
  change (negb (PropertyApi.method_is_GET (Some (lit "GET")))) with false. cbv iota.
  rewrite (valid_address_passes a Ha). unfold PropertyApi.axios_get.
  fold (PropertyApi.the_call env a). rewrite Hb.
  destruct r as [s dat]. destruct dat as [| |d]; cbn;
    try destruct (Z.eqb_spec s 200) as [->|Hs]; cbn;
    (split; [reflexivity|]); (split; [reflexivity|]); split;
    try (intros d' H1 H2; first [discriminate | congruence | (injection H2 as ->; split; reflexivity)]);
    try (intros [H|[H|H]]; first [discriminate | congruence | (split; reflexivity)]).
Qed.

Lemma answered_call_relayed_witness :
  let req := Samples.GET (PropertyApi.QString (lit " 1 Main St ")) in
  let r := {| status := 200%Z; data := Val Samples.disordered |} in
  let st := PropertyApi.serve Undefined (Samples.backend_ok Samples.disordered) req in
  PropertyApi.backend_calls st = [PropertyApi.the_call Undefined (lit " 1 Main St ")] /\
  PropertyApi.headers (PropertyApi.res st) = [] /\
  (forall d, status r = 200%Z -> data r = Val d ->
     PropertyApi.statusCode (PropertyApi.res st) = Some 200%Z /\
     PropertyApi.body (PropertyApi.res st) = Some (PropertyApi.DataBody d)) /\
  (status r <> 200%Z \/ data r = Undefined \/ data r = Null ->
     PropertyApi.statusCode (PropertyApi.res st) = Some 500%Z /\
     PropertyApi.body (PropertyApi.res st)
       = Some (PropertyApi.MessageBody
                 {| message := lit "Received invalid response from backend service." |})).
Proof.
  apply (answered_call_relayed Undefined (Samples.backend_ok Samples.disordered)
           (Samples.GET (PropertyApi.QString (lit " 1 Main St "))) (lit " 1 Main St ")
           {| status := 200%Z; data := Val Samples.disordered |}).
  - reflexivity.
  - reflexivity.
  - vm_compute. discriminate.
  - reflexivity.
Defined.

(** X2. Whatever the request and whatever the backend does, the handler
    returns normally having set a status and a JSON body, and it has called
    the backend at most once.  A data body goes with status 200; a message
    body is never empty; the only header ever set is [Allow: GET], on a
    405. *)
Theorem route_always_answers :
  forall env backend (req : PropertyApi.NextApiRequest),
    let st := PropertyApi.serve env backend req in
    PropertyApi.handler_outcome env backend req = inr tt /\
    (length (PropertyApi.backend_calls st) <= 1)%nat /\
    exists s b,
      PropertyApi.statusCode (PropertyApi.res st) = Some s /\
      PropertyApi.body (PropertyApi.res st) = Some b /\
      match b with
      | PropertyApi.DataBody _ =>
          s = 200%Z /\ PropertyApi.headers (PropertyApi.res st) = []
      | PropertyApi.MessageBody e =>
          message e <> [] /\
          (PropertyApi.headers (PropertyApi.res st) = [] \/
           (s = 405%Z /\
            PropertyApi.headers (PropertyApi.res st) = [(lit "Allow", [lit "GET"])]))
      end.
Proof.
  intros env backend req. cbv zeta.
  route_cases env backend req; cbn -[or_string trim];
    (split; [reflexivity|]); (split; [auto|]);
    do 2 eexists; (split; [reflexivity|]); (split; [reflexivity|]);
    cbn -[or_string trim];
    try (split; [reflexivity|reflexivity]);
    (split; [first [discriminate | apply or_string_nonempty; discriminate]
            | first [left; reflexivity | right; split; reflexivity]]).
Qed.

Lemma backend_calls_eq env backend (req : PropertyApi.NextApiRequest) :
  PropertyApi.backend_calls (PropertyApi.serve env backend req)
  = if PropertyApi.method_is_GET (PropertyApi.method req) then
      match PropertyApi.query_address req with
      | PropertyApi.QString a =>
          if str_eqb (trim a) [] then [] else [PropertyApi.the_call env a]
      | _ => []
      end
    else [].
Proof.
  route_cases env backend req; cbn -[or_string trim]; try reflexivity.
  destruct a; [reflexivity|discriminate].
Qed.

(** X3. The backend is called exactly when the request is a GET whose
    [address] is a single string that does not trim to the empty string, and
    then it is called once, with the trimmed address.  A 400 or 405 answer
    alone does not tell: the backend's own 400 is relayed after a call. *)
Theorem backend_called_iff_valid :
  forall env backend (req : PropertyApi.NextApiRequest),
    let st := PropertyApi.serve env backend req in
    (exists a,
        PropertyApi.method req = Some (lit "GET") /\
        PropertyApi.query_address req = PropertyApi.QString a /\
        trim a <> [] /\
        PropertyApi.backend_calls st = [PropertyApi.the_call env a])
    \/
    ((PropertyApi.method req <> Some (lit "GET") \/
      (forall a, PropertyApi.query_address req = PropertyApi.QString a -> trim a = [])) /\
     PropertyApi.backend_calls st = []).
Proof.
  intros env backend req. cbv zeta. rewrite backend_calls_eq.
  destruct (PropertyApi.method_is_GET (PropertyApi.method req)) eqn:Hm.
  - apply method_is_GET_true in Hm.
    destruct (PropertyApi.query_address req) as [|a|l] eqn:Hq.
    + right. split; [right; intros a H; discriminate|reflexivity].
    + destruct (str_eqb (trim a) []) eqn:Ha.
      * right. split; [|reflexivity]. right. intros a' H. injection H as <-.
        now apply str_eqb_eq.
      * left. exists a. repeat split; try assumption.
        intros E. rewrite E in Ha. discriminate.
    + right. split; [right; intros a H; discriminate|reflexivity].
  - right. split; [|reflexivity]. left. intros E. rewrite E in Hm. discriminate.
Qed.

(** X4. Every call the route makes goes to the configured URL (the
    environment's, or the localhost default when that is unset or empty)
    with a 15 s timeout, and carries an address that is non-empty, neither
    starts nor ends with white space, and is left unchanged by [trim]. *)
Theorem backend_call_shape :
  forall env backend (req : PropertyApi.NextApiRequest) (c : PropertyApi.BackendCall),
    In c (PropertyApi.backend_calls (PropertyApi.serve env backend req)) ->
    PropertyApi.call_url c = or_string env (lit "http://localhost:8001/property") /\
    PropertyApi.call_timeout c = 15000%Z /\
    PropertyApi.call_address c <> [] /\
    (forall u, hd_error (PropertyApi.call_address c) = Some u -> is_white_space u = false) /\
    (forall u, hd_error (rev (PropertyApi.call_address c)) = Some u ->
               is_white_space u = false) /\
    trim (PropertyApi.call_address c) = PropertyApi.call_address c.
Proof.
  intros env backend req c Hin. rewrite backend_calls_eq in Hin.
  destruct (PropertyApi.method_is_GET (PropertyApi.method req)); [|contradiction].
  destruct (PropertyApi.query_address req) as [|a|l]; try contradiction.
  destruct (str_eqb (trim a) []) eqn:Ha; [contradiction|].
  destruct Hin as [<-|[]]. unfold PropertyApi.the_call. cbn [PropertyApi.call_url
    PropertyApi.call_timeout PropertyApi.call_address].
  split; [reflexivity|]. split; [reflexivity|].
  split; [intros E; rewrite E in Ha; discriminate|].
  split; [apply trim_first|]. split; [apply trim_last|apply trim_idempotent].
Qed.

Lemma backend_call_shape_witness :
  let c := PropertyApi.the_call Undefined (lit "  1 Main St ") in
  PropertyApi.call_url c = or_string Undefined (lit "http://localhost:8001/property") /\
  PropertyApi.call_timeout c = 15000%Z /\
  PropertyApi.call_address c <> [] /\
  (forall u, hd_error (PropertyApi.call_address c) = Some u -> is_white_space u = false) /\
  (forall u, hd_error (rev (PropertyApi.call_address c)) = Some u ->
             is_white_space u = false) /\
  trim (PropertyApi.call_address c) = PropertyApi.call_address c.
Proof.
  apply (backend_call_shape Undefined Samples.backend_down
           (Samples.GET (PropertyApi.QString (lit "  1 Main St ")))
           (PropertyApi.the_call Undefined (lit "  1 Main St "))).
  vm_compute. left. reflexivity.
Defined.

(** X5. The earlier revision of the route and the current one agree, on
    every request and every backend, on the status code, on the headers, on
    the backend calls made and on the data relayed; they can differ only in
    the text of a message. *)
Theorem legacy_route_agrees :
  forall env backend (req : PropertyApi.NextApiRequest),
    let old := LegacyRoute.serve env backend req in
    let new := PropertyApi.serve env backend req in
    PropertyApi.statusCode (PropertyApi.res old) = PropertyApi.statusCode (PropertyApi.res new) /\
    PropertyApi.headers (PropertyApi.res old) = PropertyApi.headers (PropertyApi.res new) /\
    PropertyApi.backend_calls old = PropertyApi.backend_calls new /\
    (forall d, PropertyApi.body (PropertyApi.res old) = Some (PropertyApi.DataBody d) <->
               PropertyApi.body (PropertyApi.res new) = Some (PropertyApi.DataBody d)) /\
    (forall e, PropertyApi.body (PropertyApi.res old) = Some (PropertyApi.MessageBody e) ->
               exists e', PropertyApi.body (PropertyApi.res new) = Some (PropertyApi.MessageBody e')).
Proof.
  intros env backend req. cbv zeta. unfold LegacyRoute.serve, LegacyRoute.handler.
  route_cases env backend req; cbn -[or_string trim];
    try rewrite Hb; cbn -[or_string trim];
    try match goal with
        | |- context [(?z =? 200)%Z] =>
            destruct (Z.eqb_spec z 200) as [Hs'|Hs']; [try congruence|]
        end;
    cbn -[or_string trim];
    repeat split; try discriminate; try (intros; eexists; reflexivity); auto.
Qed.

(** ** The search bar *)

(** X6. Submitting the form always cancels the browser's submission.  The
    Search button is disabled exactly when submitting would call nothing;
    when it is enabled, submitting calls [onSubmit] once, with the trimmed
    text, which is not empty, and the bar is not loading. *)
Theorem search_bar_submits_iff_enabled :
  forall (text : jsstring) (loading : bool),
    let events := SearchBar.handleSubmit text loading in
    let view := SearchBar.render text loading in
    In SearchBar.PreventDefault events /\
    (SearchBar.button_disabled view = true -> SearchBar.submitted events = []) /\
    (SearchBar.button_disabled view = false ->
       SearchBar.submitted events = [trim text] /\ trim text <> [] /\ loading = false).
Proof.
  intros text loading. cbv zeta.
  unfold SearchBar.handleSubmit, SearchBar.render. cbn [SearchBar.button_disabled].
  split; [left; reflexivity|].
  destruct loading; destruct (trim text) as [|c t]; simpl; split;
    intros H; try discriminate; try reflexivity.
  repeat split. discriminate.
Qed.

(** X7. An address the search bar submits is never turned down by the
    route's own validation: sent as the [address] of a GET, it is passed to
    the backend exactly as submitted. *)
Theorem submitted_address_reaches_backend :
  forall (text : jsstring) (loading : bool) (a : jsstring) env backend,
    In a (SearchBar.submitted (SearchBar.handleSubmit text loading)) ->
    PropertyApi.backend_calls
      (PropertyApi.serve env backend (Samples.GET (PropertyApi.QString a)))
    = [{| PropertyApi.call_url := or_string env (lit "http://localhost:8001/property");
          PropertyApi.call_address := a;
          PropertyApi.call_timeout := 15000 |}].
Proof.
  intros text loading a env backend Hin.
  unfold SearchBar.handleSubmit in Hin. cbn [SearchBar.submitted] in Hin.
  destruct (truthy_string (trim text) && negb loading) eqn:E; [|contradiction].
  destruct Hin as [<-|[]].
  apply andb_true_iff in E as [E _].
  assert (Hne : trim (trim text) <> []).
  { rewrite trim_idempotent. destruct (trim text); [discriminate E|discriminate]. }
  rewrite backend_calls_eq. cbn [Samples.GET PropertyApi.method PropertyApi.query_address].
  change (PropertyApi.method_is_GET (Some (lit "GET"))) with true. cbv iota.
  rewrite (str_eqb_neq _ _ Hne). unfold PropertyApi.the_call.
  rewrite trim_idempotent. reflexivity.
Qed.

Lemma submitted_address_reaches_backend_witness :
  PropertyApi.backend_calls
    (PropertyApi.serve Undefined Samples.backend_down
       (Samples.GET (PropertyApi.QString (lit "1 Main St"))))
  = [{| PropertyApi.call_url := or_string Undefined (lit "http://localhost:8001/property");
        PropertyApi.call_address := lit "1 Main St";
        PropertyApi.call_timeout := 15000 |}].
Proof.
  apply (submitted_address_reaches_backend (lit "  1 Main St  ") false (lit "1 Main St")
           Undefined Samples.backend_down).
  vm_compute. left. reflexivity.
Defined.

(** ** The page, on every outcome of the request *)

Lemma after_search_cases api st0 address :
  Page.after_search api st0 address
  = match api {| Page.api_address := address; Page.api_timeout := 30000 |} with
    | inr r =>
        match data r with
        | Val d =>
            {| Page.propertyData := Some d; Page.isLoading := false;
               Page.error := None; Page.isNotFoundError := false |}
        | _ =>
            {| Page.propertyData := None; Page.isLoading := false;
               Page.error := Some (lit "Received empty data from server.");
               Page.isNotFoundError := false |}
        end
    | inl (ThrownAxiosError e) =>
        {| Page.propertyData := None; Page.isLoading := false;
           Page.error :=
             Some (or_string (response_message e)
                     (if status_is e 404 then Page.not_found_default else ae_message e));
           Page.isNotFoundError := status_is e 404 |}
    | inl (ThrownError m) =>
        {| Page.propertyData := None; Page.isLoading := false;
           Page.error := Some m; Page.isNotFoundError := false |}
    | inl ThrownValue =>
        {| Page.propertyData := None; Page.isLoading := false;
           Page.error := Some (lit "An unexpected error occurred. Please try again later.");
           Page.isNotFoundError := false |}
    end.
Proof.
  unfold Page.after_search, Page.handleSearchSubmit, Page.axios_get.
  destruct (api _) as [[e|m|]|[s [| |d]]]; try reflexivity.
  cbn. destruct (status_is e 404); reflexivity.
Qed.

Lemma search_returns api st0 address :
  fst (runState (unEitherT (Page.handleSearchSubmit api address)) st0) = inr tt.
Proof.
  unfold Page.handleSearchSubmit, Page.axios_get.
  destruct (api _) as [[e|m|]|[s [| |d]]]; try reflexivity.
  cbn. destruct (status_is e 404); reflexivity.
Qed.

(** X8. However the request ends, [handleSearchSubmit] returns without
    throwing and leaves the page not loading, with either the data and no
    error, or an error message and no data.  The not-found flag is up only
    after an axios error whose reply has status 404. *)
Theorem search_settles :
  forall api (st0 : Page.PageState) (address : jsstring),
    let st := Page.after_search api st0 address in
    fst (runState (unEitherT (Page.handleSearchSubmit api address)) st0) = inr tt /\
    Page.isLoading st = false /\
    ((exists d, Page.propertyData st = Some d /\ Page.error st = None /\
                Page.isNotFoundError st = false) \/
     (Page.propertyData st = None /\ exists m, Page.error st = Some m)) /\
    (Page.isNotFoundError st = true ->
       exists e r,
         api {| Page.api_address := address; Page.api_timeout := 30000 |}
           = inl (ThrownAxiosError e) /\
         ae_response e = Some r /\ status r = 404%Z).
Proof.
  intros api st0 address. cbv zeta.
  split; [apply search_returns|].
  rewrite after_search_cases.
  destruct (api _) as [[e|m|]|[s [| |d]]]; cbn [Page.propertyData Page.isLoading
    Page.error Page.isNotFoundError];
    (split; [reflexivity|]);
    (split; [first [ left; eexists; repeat split; reflexivity
                   | right; split; [reflexivity|eexists; reflexivity] ]|]);
    try discriminate.
  unfold status_is, response_status.
  destruct (ae_response e) as [r|] eqn:Er; [|discriminate].
  intros H. apply Z.eqb_eq in H. exists e, r. repeat split; assumption.
Qed.

(** X9. A search starts from a clean slate: the state it ends in does not
    depend on the state it started from, so nothing of an earlier result or
    error survives. *)
Theorem earlier_state_discarded :
  forall api (st0 st1 : Page.PageState) (address : jsstring),
    Page.after_search api st0 address = Page.after_search api st1 address.
Proof.
  intros api st0 st1 address. rewrite !after_search_cases. reflexivity.
Qed.

(** X10. An answered request: with data in the reply the page stores it,
    shows no alert and shows the data card; with no data in the reply it
    shows the destructive alert "Received empty data from server." and no
    card. *)
Theorem answered_search_displayed :
  forall api tls (st0 : Page.PageState) (address : jsstring) (r : AxiosResponse PropertyData),
    api {| Page.api_address := address; Page.api_timeout := 30000 |} = inr r ->
    let st := Page.after_search api st0 address in
    let view := Page.HomePage tls st in
    (forall d, data r = Val d ->
       Page.propertyData st = Some d /\ Page.error st = None /\
       Page.alert view = None /\
       exists c, Page.dashboard view = inr (Dashboard.Card c)) /\
    (data r = Undefined \/ data r = Null ->
       Page.propertyData st = None /\
       Page.alert view
         = Some {| Page.variant := Page.VariantDestructive; Page.icon := Page.IconTerminal;
                   Page.title := lit "Search Failed";
                   Page.alert_description := lit "Received empty data from server." |} /\
       Page.dashboard view = inr Dashboard.Nothing).
Proof.
  intros api tls st0 address r H. cbv zeta.
  rewrite after_search_cases, H. unfold Page.HomePage.
  split.
  - intros d Hd. rewrite Hd.
    cbn [Page.propertyData Page.isLoading Page.error Page.alert Page.dashboard].
    repeat (split; [reflexivity|]).
    destruct (InsightsDashboard_card tls d) as [c [Hc _]]. eauto.
  - intros [Hd|Hd]; rewrite Hd; repeat split.
Qed.

Lemma answered_search_displayed_witness :
  let r := {| status := 200%Z; data := Val Samples.blank |} in
  let st := Page.after_search (Samples.api_ok Samples.blank) Page.initial (lit "1 Main St") in
  let view := Page.HomePage EnUS.toLocaleString st in
  (forall d, data r = Val d ->
     Page.propertyData st = Some d /\ Page.error st = None /\
     Page.alert view = None /\
     exists c, Page.dashboard view = inr (Dashboard.Card c)) /\
  (data r = Undefined \/ data r = Null ->
     Page.propertyData st = None /\
     Page.alert view
       = Some {| Page.variant := Page.VariantDestructive; Page.icon := Page.IconTerminal;
                 Page.title := lit "Search Failed";
                 Page.alert_description := lit "Received empty data from server." |} /\
     Page.dashboard view = inr Dashboard.Nothing).
Proof.
  apply (answered_search_displayed (Samples.api_ok Samples.blank) EnUS.toLocaleString
           Page.initial (lit "1 Main St") {| status := 200%Z; data := Val Samples.blank |}).
  reflexivity.
Defined.

(** X11. A failure that carries no reply (a network error, a timeout, or
    any other thrown value) is never taken for "not found".  The message
    kept is the error's own, or a fixed text for a thrown value that is not
    an [Error].  When that message is not empty the destructive alert shows
    it; when it is empty the page shows neither an alert nor a card. *)
Theorem failure_without_reply :
  forall api tls (st0 : Page.PageState) (address : jsstring) (t : Thrown),
    api {| Page.api_address := address; Page.api_timeout := 30000 |} = inl t ->
    (forall e, t = ThrownAxiosError e -> ae_response e = None) ->
    let m := match t with
             | ThrownAxiosError e => ae_message e
             | ThrownError m => m
             | ThrownValue => lit "An unexpected error occurred. Please try again later."
             end in
    let st := Page.after_search api st0 address in
    let view := Page.HomePage tls st in
    Page.error st = Some m /\ Page.isNotFoundError st = false /\
    Page.dashboard view = inr Dashboard.Nothing /\
    (m <> [] ->
       Page.alert view
         = Some {| Page.variant := Page.VariantDestructive; Page.icon := Page.IconTerminal;
                   Page.title := lit "Search Failed"; Page.alert_description := m |}) /\
    (m = [] -> Page.alert view = None).
Proof.
  intros api tls st0 address t H Hno. cbv zeta.
  rewrite after_search_cases, H. unfold Page.HomePage, Page.error_alert.
  destruct t as [e|m|].
  - specialize (Hno e eq_refl).
    unfold status_is, response_status, response_message. rewrite Hno.
    cbn [Page.propertyData Page.isLoading Page.error Page.isNotFoundError
         Page.alert Page.dashboard or_string].
    repeat (split; [reflexivity|]). split.
    + intros Hm. rewrite (truthy_nonempty _ Hm). reflexivity.
    + intros ->. reflexivity.
  - cbn [Page.propertyData Page.isLoading Page.error Page.isNotFoundError
         Page.alert Page.dashboard].
    repeat (split; [reflexivity|]). split.
    + intros Hm. rewrite (truthy_nonempty _ Hm). reflexivity.
    + intros ->. reflexivity.
  - repeat split. discriminate.
Qed.

Lemma failure_without_reply_witness :
  let t := ThrownAxiosError (no_response_error (lit "Network Error")) in
  let st := Page.after_search (fun _ => inl t) Page.initial (lit "1 Main St") in
  let view := Page.HomePage EnUS.toLocaleString st in
  Page.error st = Some (lit "Network Error") /\ Page.isNotFoundError st = false /\
  Page.dashboard view = inr Dashboard.Nothing /\
  (lit "Network Error" <> [] ->
     Page.alert view
       = Some {| Page.variant := Page.VariantDestructive; Page.icon := Page.IconTerminal;
                 Page.title := lit "Search Failed";
                 Page.alert_description := lit "Network Error" |}) /\
  (lit "Network Error" = [] -> Page.alert view = None).
Proof.
  apply (failure_without_reply
           (fun _ => inl (ThrownAxiosError (no_response_error (lit "Network Error"))))
           EnUS.toLocaleString Page.initial (lit "1 Main St")
           (ThrownAxiosError (no_response_error (lit "Network Error")))).
  - reflexivity.
  - intros e H. injection H as <-. reflexivity.
Defined.

(** X12. After any search the page never shows an alert together with the
    data card, and never the loading skeleton: it shows the card with no
    alert, or no card. *)
Theorem alert_excludes_card :
  forall api tls (st0 : Page.PageState) (address : jsstring),
    let view := Page.HomePage tls (Page.after_search api st0 address) in
    ((exists c, Page.dashboard view = inr (Dashboard.Card c)) /\ Page.alert view = None)
    \/ Page.dashboard view = inr Dashboard.Nothing.
Proof.
  intros api tls st0 address. cbv zeta.
  rewrite after_search_cases. unfold Page.HomePage.
  destruct (api _) as [[e|m|]|[s [| |d]]];
    cbn [Page.propertyData Page.isLoading Page.dashboard];
    try (right; reflexivity).
  left. split; [|reflexivity].
  destruct (InsightsDashboard_card tls d) as [c [Hc _]]. eauto.
Qed.

(** X13. The revision of the page that mounts the dashboard only under
    [propertyData && !isLoading] renders the same view as the current one in
    every state that is not loading; while loading it shows nothing where
    the current one shows the skeleton. *)
Theorem guarded_page_agrees :
  forall tls (st : Page.PageState),
    (Page.isLoading st = false -> GuardedPage.HomePage tls st = Page.HomePage tls st) /\
    (Page.isLoading st = true ->
       Page.dashboard (GuardedPage.HomePage tls st) = inr Dashboard.Nothing /\
       Page.dashboard (Page.HomePage tls st) = inr Dashboard.Skeleton /\
       Page.alert (GuardedPage.HomePage tls st) = None /\
       Page.alert (Page.HomePage tls st) = None).
Proof.
  intros tls [pd loading err nf]. unfold GuardedPage.HomePage, Page.HomePage, Page.error_alert.
  cbn [Page.propertyData Page.isLoading Page.error Page.isNotFoundError].
  split; intros ->.
  - destruct pd; reflexivity.
  - cbn [Page.alert Page.dashboard]. destruct pd; destruct err as [m|];
      rewrite ?andb_false_r; repeat split.
Qed.

(** X14. Submitting the form while a search is loading, or with a text
    that is blank after trimming, leaves the page as it is; otherwise it
    runs one search, for the trimmed text. *)
Theorem form_submission :
  forall api (st : Page.PageState) (text : jsstring),
    (Page.isLoading st = true -> SearchFlow.submit_form api st text = st) /\
    (trim text = [] -> SearchFlow.submit_form api st text = st) /\
    (Page.isLoading st = false -> trim text <> [] ->
       SearchFlow.submit_form api st text = Page.after_search api st (trim text)).
Proof.
  intros api st text. unfold SearchFlow.submit_form, SearchBar.handleSubmit.
  repeat split.
  - intros ->. rewrite andb_false_r. reflexivity.
  - intros ->. reflexivity.
  - intros -> Hne. rewrite (truthy_nonempty _ Hne). reflexivity.
Qed.

(** ** The dashboard, on every record *)

Lemma demographics_section_grid tls d :
  Dashboard.hasCensusData d = true ->
  exists a b c e,
    Dashboard.demographics_section tls d = inr (Dashboard.CensusGrid [a; b; c; e]).
Proof.
  intros H. unfold Dashboard.demographics_section. rewrite H.
  destruct (CensusDataItem_returns tls (lit "Total Population")
              (Dashboard.census_field totalPopulation (censusData d))) as [a ->].
  destruct (CensusDataItem_returns tls (lit "Median Age")
              (Dashboard.census_field medianAge (censusData d))) as [b ->].
  destruct (CensusDataItem_returns tls (lit "Male Population")
              (Dashboard.census_field malePopulation (censusData d))) as [c ->].
  destruct (CensusDataItem_returns tls (lit "Female Population")
              (Dashboard.census_field femalePopulation (censusData d))) as [e ->].
  exists a, b, c, e. reflexivity.
Qed.

Lemma card_fields tls d c :
  Dashboard.InsightsDashboard tls (Some d) false = inr (Dashboard.Card c) ->
  Dashboard.demographics_section tls d = inr (Dashboard.demographics c) /\
  Dashboard.forecast_section d = inr (Dashboard.forecast c) /\
  Dashboard.historical c = Dashboard.historical_section d /\
  Dashboard.forecast_years c
    = match predictionPoints d with
      | Val l => (Z.of_nat (length l) - 1)%Z
      | _ => 0%Z
      end.
Proof.
  unfold Dashboard.InsightsDashboard.
  destruct (demographics_section_returns tls d) as [demo [Hd _]].
  rewrite Hd, (forecast_section_spec d). simpl.
  intros H. injection H as <-. simpl. repeat split.
Qed.


(** X16. The Demographics section is a grid exactly when [censusData] is
    there and at least one of its four fields holds a number; a
    [censusData] object whose fields are all missing or [null] gets the
    placeholder, as a missing object does.  A grid always has four slots. *)
Theorem census_grid_iff_number :
  forall tls (d : PropertyData),
  exists c,
    Dashboard.InsightsDashboard tls (Some d) false = inr (Dashboard.Card c) /\
    ((exists items, Dashboard.demographics c = Dashboard.CensusGrid items) <->
     (exists cd n, censusData d = Val cd /\
        (totalPopulation cd = Val n \/ malePopulation cd = Val n \/
         femalePopulation cd = Val n \/ medianAge cd = Val n))) /\
    (forall items, Dashboard.demographics c = Dashboard.CensusGrid items ->
                   length items = 4%nat) /\
    ((forall items, Dashboard.demographics c <> Dashboard.CensusGrid items) ->
     Dashboard.demographics c
       = Dashboard.DemographicsPlaceholder
           (lit "Demographic data is not available for this area.")).
Proof.
  intros tls d.
  destruct (InsightsDashboard_card tls d) as [c [Hc [Hdemo _]]].
  exists c. split; [exact Hc|].
  destruct (Dashboard.hasCensusData d) eqn:Hh.
  - destruct (demographics_section_grid tls d Hh) as [a [b [x [e Hg]]]].
    assert (E : Dashboard.demographics c = Dashboard.CensusGrid [a; b; x; e]) by congruence.
    split; [split|split].
    + intros _. unfold Dashboard.hasCensusData in Hh.
      destruct (censusData d) as [| |cd]; try discriminate.
      apply existsb_exists in Hh as [v [Hin Hv]].
      destruct v as [| |n]; try discriminate.
      exists cd, n. split; [reflexivity|].
      unfold Dashboard.census_values in Hin. simpl in Hin.
      destruct Hin as [H|[H|[H|[H|[]]]]]; auto.
    + intros _. eauto.
    + intros items Hi. rewrite E in Hi. injection Hi as <-. reflexivity.
    + intros H. elim (H _ E).
  - destruct (demographics_section_returns tls d) as [demo [Hd Hp]].
    assert (E : Dashboard.demographics c
                = Dashboard.DemographicsPlaceholder
                    (lit "Demographic data is not available for this area.")).
    { rewrite <- (Hp Hh). congruence. }
    split; [split|split].
    + intros [items Hi]. rewrite E in Hi. discriminate.
    + intros [cd [n [Hcd Hn]]]. exfalso.
      unfold Dashboard.hasCensusData in Hh. rewrite Hcd in Hh.
      unfold Dashboard.census_values in Hh. simpl in Hh.
      destruct Hn as [H|[H|[H|H]]]; rewrite H in Hh; simpl in Hh;
        rewrite ?orb_true_r in Hh; discriminate.
    + intros items Hi. rewrite E in Hi. discriminate.
    + intros _. exact E.
Qed.

(** X17. The heading of the forecast section counts one year less than
    there are prediction points, and zero when the field is missing.  An
    empty array is the one case where the count is negative: the heading
    reads "Next -1 Years" above the placeholder. *)
Theorem forecast_heading_years :
  forall tls (d : PropertyData),
  exists c,
    Dashboard.InsightsDashboard tls (Some d) false = inr (Dashboard.Card c) /\
    (forall l, predictionPoints d = Val l ->
       Dashboard.forecast_years c = (Z.of_nat (length l) - 1)%Z) /\
    (predictionPoints d = Undefined \/ predictionPoints d = Null ->
       Dashboard.forecast_years c = 0%Z) /\
    ((Dashboard.forecast_years c < 0)%Z <-> predictionPoints d = Val []) /\
    (predictionPoints d = Val [] ->
       Dashboard.forecast_years c = (-1)%Z /\
       Dashboard.forecast c
         = Dashboard.ForecastPlaceholder (lit "Value forecast chart could not be generated.")).
Proof.
  intros tls d.
  destruct (InsightsDashboard_card tls d) as [c [Hc _]].
  destruct (card_fields tls d c Hc) as [_ [Hf [_ Hy]]].
  rewrite forecast_section_spec in Hf.
  exists c. split; [exact Hc|].
  destruct (predictionPoints d) as [| |[|p l]]; rewrite Hy.
  - repeat split; try discriminate; try lia.
  - repeat split; try discriminate; try lia.
  - split; [intros l H; injection H as <-; reflexivity|].
    split; [intros [H|H]; discriminate|].
    split; [split; [reflexivity|reflexivity]|].
    intros _. split; [reflexivity|congruence].
  - split; [intros l' H; injection H as <-; reflexivity|].
    split; [intros [H|H]; discriminate|].
    split; [|discriminate].
    split; [simpl length; lia|discriminate].
Qed.

Lemma hd_rev_map_last {A B} (f : A -> B) (l : list A) : forall h,
  hd_error (rev (map f (h :: l))) = Some (f (last l h)).
Proof.
  induction l as [|x l IH]; intros h; [reflexivity|].
  change (map f (h :: x :: l)) with (f h :: map f (x :: l)).
  change (rev (f h :: map f (x :: l))) with (rev (map f (x :: l)) ++ [f h]).
  specialize (IH x).
  destruct (rev (map f (x :: l))) as [|y t]; [discriminate|].
  simpl. simpl in IH. rewrite IH. f_equal. f_equal. symmetry. apply last_cons.
Qed.

(** X18. When the dashboard shows both charts they join: the forecast
    series starts at the last point of the historical series, and then has
    one point per prediction point. *)
Theorem forecast_joins_history :
  forall tls (d : PropertyData) (c : Dashboard.DashboardCard)
         (hs fs : Charts.Series),
    Dashboard.InsightsDashboard tls (Some d) false = inr (Dashboard.Card c) ->
    Dashboard.historical c = Dashboard.HistoricalChart hs ->
    Dashboard.forecast c = Dashboard.ForecastChart fs ->
    hs <> [] /\
    hd_error fs = hd_error (rev hs) /\
    exists l, predictionPoints d = Val l /\
              tl fs = map (fun q => (pp_date q, pp_value q)) l.
Proof.
  intros tls d c hs fs Hc Hh Hf.
  destruct (card_fields tls d c Hc) as [_ [Hfs [Hhs _]]].
  rewrite forecast_section_spec in Hfs. rewrite historical_section_spec in Hhs.
  rewrite Hh in Hhs. rewrite Hf in Hfs.
  destruct (historicalValues d) as [| |[|h l]]; try discriminate.
  injection Hhs as ->.
  destruct (predictionPoints d) as [| |[|p ps]]; try discriminate.
  injection Hfs as <-.
  split; [discriminate|]. split.
  - symmetry. exact (hd_rev_map_last (fun v => (hv_date v, hv_value v)) l h).
  - exists (p :: ps). split; reflexivity.
Qed.

Lemma forecast_joins_history_witness :
  let d := Samples.with_series (Val Samples.two_years)
             (Val [Samples.pp "2025-01-01" 330000; Samples.pp "2026-01-01" 340000]) Undefined in
  let hs := [(lit "2023-01-01", number_of_Z 300000); (lit "2024-01-01", number_of_Z 320000)] in
  let fs := [(lit "2024-01-01", number_of_Z 320000); (lit "2025-01-01", number_of_Z 330000);
             (lit "2026-01-01", number_of_Z 340000)] in
  hs <> [] /\
  hd_error fs = hd_error (rev hs) /\
  exists l, predictionPoints d = Val l /\
            tl fs = map (fun q => (pp_date q, pp_value q)) l.
Proof.
  apply (forecast_joins_history EnUS.toLocaleString
           (Samples.with_series (Val Samples.two_years)
              (Val [Samples.pp "2025-01-01" 330000; Samples.pp "2026-01-01" 340000]) Undefined)
           {| Dashboard.shows_valuation := false;
              Dashboard.shows_predictions := false;
              Dashboard.ai_brief :=
                Dashboard.AiPlaceholder (lit "AI summary could not be generated for this property.");
              Dashboard.demographics_zip := lit "N/A";
              Dashboard.demographics :=
                Dashboard.DemographicsPlaceholder
                  (lit "Demographic data is not available for this area.");
              Dashboard.historical :=
                Dashboard.HistoricalChart
                  [(lit "2023-01-01", number_of_Z 300000); (lit "2024-01-01", number_of_Z 320000)];
              Dashboard.forecast_years := 1;
              Dashboard.forecast :=
                Dashboard.ForecastChart
                  [(lit "2024-01-01", number_of_Z 320000); (lit "2025-01-01", number_of_Z 330000);
                   (lit "2026-01-01", number_of_Z 340000)];
              Dashboard.shows_details := false |}).
  - vm_compute. reflexivity.
  - reflexivity.
  - reflexivity.
Defined.

(** ** The helpers under the [en-US] formatter *)

Lemma uint_units_digit (u : Decimal.uint) (c : N) :
  In c (uint_units u) -> (48 <= c <= 57)%N.
Proof.
  induction u; simpl; intros H; try contradiction;
    (destruct H as [<-|H]; [lia|auto]).
Qed.

Lemma strip_zeros_rev_In (k : nat) : forall (l : jsstring) (c : N),
  In c (EnUS.strip_zeros_rev k l) -> In c l.
Proof.
  induction k as [|k IH]; intros l c; [destruct l; auto|].
  destruct l as [|x l]; [auto|]. simpl.
  destruct (N.eq_dec x 48) as [->|Hx].
  - intros H. right. apply IH, H.
  - destruct x as [|p]; [auto|].
    repeat (destruct p as [p|p|]; auto); elim Hx; reflexivity.
Qed.

Lemma commas_rev_In (l : jsstring) : forall (k : nat) (c : N),
  In c (EnUS.commas_rev k l) -> c = 44%N \/ In c l.
Proof.
  induction l as [|x l IH]; intros k c; simpl; [auto|].
  destruct (Nat.eqb k 3); simpl.
  - intros [<-|[<-|H]]; auto. destruct (IH _ _ H); auto.
  - intros [<-|H]; auto. destruct (IH _ _ H); auto.
Qed.

Lemma render_magnitude_chars (n : N) (mnfd f : nat) (c : N) :
  In c (EnUS.render_magnitude n mnfd f) -> c = 44%N \/ c = 46%N \/ (48 <= c <= 57)%N.
Proof.
  unfold EnUS.render_magnitude, EnUS.raw_fixed, EnUS.group_thousands.
  set (s := repeat 48%N (S f - length (decimal_digits n)) ++ decimal_digits n).
  assert (Hs : forall x, In x s -> (48 <= x <= 57)%N).
  { intros x Hx. apply in_app_or in Hx as [Hx|Hx].
    - apply repeat_spec in Hx. lia.
    - apply (uint_units_digit _ _ Hx). }
  assert (Hsplit : forall x k, In x (firstn k s) \/ In x (skipn k s) -> In x s).
  { intros x k Hx. rewrite <- (firstn_skipn k s). apply in_or_app, Hx. }
  intros H. apply in_app_or in H as [H|H].
  - apply in_rev in H. apply commas_rev_In in H as [->|H]; [auto|].
    apply in_rev in H. right; right. apply Hs, (Hsplit _ (length s - f)%nat). auto.
  - destruct (rev (EnUS.strip_zeros_rev (f - mnfd) (rev (skipn (length s - f) s))))
      as [|y t] eqn:E; [contradiction|].
    destruct H as [<-|H]; [auto|].
    rewrite <- E in H. apply in_rev in H. apply strip_zeros_rev_In in H.
    apply in_rev in H. right; right. apply Hs, (Hsplit _ (length s - f)%nat). auto.
Qed.

(** A number formatted without options is never the placeholder text. *)
Lemma plain_number_not_placeholder (x : number) :
  (if EnUS.sign_of x then lit "-" else []) ++ EnUS.magnitude x 0 3 <> lit "N/A".
Proof.
  destruct x as [s|s| |s m e]; try (destruct s; discriminate); [discriminate|].
  destruct s; [discriminate|].
  simpl. intros H.
  assert (Hin : In 78%N (EnUS.render_magnitude (EnUS.scaled_round m e 3) 0 3)).
  { rewrite H. left. reflexivity. }
  apply render_magnitude_chars in Hin as [Hc|[Hc|Hc]]; [discriminate|discriminate|lia].
Qed.

Lemma CensusDataItem_en_US (label : jsstring) (v : optional number) :
  Dashboard.CensusDataItem EnUS.toLocaleString label
    (match v with Val n => Val (Dashboard.CNumber n) | Null => Null | Undefined => Undefined end)
  = inr (match v with
         | Val n =>
             Some {| Dashboard.item_label := label;
                     Dashboard.item_value :=
                       (if EnUS.sign_of n then lit "-" else []) ++ EnUS.magnitude n 0 3 |}
         | _ => None
         end).
Proof.
  destruct v as [| |n]; try reflexivity.
  unfold Dashboard.CensusDataItem, Utils.formatNumber, EnUS.toLocaleString.
  cbn -[EnUS.magnitude EnUS.sign_of str_eqb lit].
  match goal with |- context [if ?b then _ else _] => destruct b eqn:E end;
    [|reflexivity].
  apply str_eqb_eq in E. elim (plain_number_not_placeholder n E).
Qed.

(** X19. Under the [en-US] formatter the four slots of the Demographics
    grid are, in order, Total Population, Median Age, Male Population and
    Female Population; a slot is filled exactly when its field holds a
    number, with that number's formatted text, and is empty when the field
    is missing or [null]. *)
Theorem census_slots_en_US :
  forall (d : PropertyData) (cd : CensusData) (c : Dashboard.DashboardCard)
         (items : list (option Dashboard.CensusItem)),
    censusData d = Val cd ->
    Dashboard.InsightsDashboard EnUS.toLocaleString (Some d) false = inr (Dashboard.Card c) ->
    Dashboard.demographics c = Dashboard.CensusGrid items ->
    Forall2
      (fun item slot =>
         match snd slot with
         | Val n =>
             item = Some {| Dashboard.item_label := fst slot;
                            Dashboard.item_value :=
                              (if EnUS.sign_of n then lit "-" else [])
                              ++ EnUS.magnitude n 0 3 |}
         | _ => item = None
         end)
      items
      [(lit "Total Population", totalPopulation cd); (lit "Median Age", medianAge cd);
       (lit "Male Population", malePopulation cd);
       (lit "Female Population", femalePopulation cd)].
Proof.
  intros d cd c items Hcd Hc Hi.
  destruct (card_fields _ d c Hc) as [Hdemo _].
  unfold Dashboard.demographics_section in Hdemo. rewrite Hi in Hdemo.
  destruct (Dashboard.hasCensusData d); [|discriminate].
  rewrite Hcd in Hdemo. unfold Dashboard.census_field in Hdemo.
  rewrite !CensusDataItem_en_US in Hdemo.
  cbn [bind Monad_completion Monad_either] in Hdemo.
  injection Hdemo as <-.
  repeat constructor; cbn [fst snd];
    match goal with |- match ?f with _ => _ end => destruct f; reflexivity end.
Qed.

Lemma census_slots_en_US_witness :
  let cd := {| totalPopulation := Val (number_of_Z 52340); malePopulation := Null;
               femalePopulation := Undefined; medianAge := Val (number_of_Z 38) |} in
  Forall2
    (fun item slot =>
       match snd slot with
       | Val n =>
           item = Some {| Dashboard.item_label := fst slot;
                          Dashboard.item_value :=
                            (if EnUS.sign_of n then lit "-" else [])
                            ++ EnUS.magnitude n 0 3 |}
       | _ => item = None
       end)
    [Some {| Dashboard.item_label := lit "Total Population";
             Dashboard.item_value := lit "52,340" |};
     Some {| Dashboard.item_label := lit "Median Age"; Dashboard.item_value := lit "38" |};
     None; None]
    [(lit "Total Population", totalPopulation cd); (lit "Median Age", medianAge cd);
     (lit "Male Population", malePopulation cd);
     (lit "Female Population", femalePopulation cd)].
Proof.
  apply (census_slots_en_US
           (Samples.with_series Undefined Undefined
              (Val {| totalPopulation := Val (number_of_Z 52340); malePopulation := Null;
                      femalePopulation := Undefined; medianAge := Val (number_of_Z 38) |}))
           {| totalPopulation := Val (number_of_Z 52340); malePopulation := Null;
              femalePopulation := Undefined; medianAge := Val (number_of_Z 38) |}
           {| Dashboard.shows_valuation := false;
              Dashboard.shows_predictions := false;
              Dashboard.ai_brief :=
                Dashboard.AiPlaceholder (lit "AI summary could not be generated for this property.");
              Dashboard.demographics_zip := lit "N/A";
              Dashboard.demographics :=
                Dashboard.CensusGrid
                  [Some {| Dashboard.item_label := lit "Total Population";
                           Dashboard.item_value := lit "52,340" |};
                   Some {| Dashboard.item_label := lit "Median Age";
                           Dashboard.item_value := lit "38" |};
                   None; None];
              Dashboard.historical :=
                Dashboard.HistoricalPlaceholder
                  (lit "Historical value data is not available for this property.");
              Dashboard.forecast_years := 0;
              Dashboard.forecast :=
                Dashboard.ForecastPlaceholder (lit "Value forecast chart could not be generated.");
              Dashboard.shows_details := false |}).
  - reflexivity.
  - vm_compute. reflexivity.
  - reflexivity.
Defined.

(** X20. On a non-empty date string [formatDate] returns the platform's
    text when the string parses and formatting succeeds, and "Invalid Date"
    in every other case: the string does not parse, parsing throws, or
    formatting throws. *)
Theorem formatDate_outcomes :
  forall (getTime : jsstring -> completion number)
         (dateText : number -> completion jsstring) (s : jsstring),
    s <> [] ->
    let r := Utils.formatDate getTime dateText (Val s) in
    (forall e, getTime s = inl e -> r = inr (lit "Invalid Date")) /\
    (forall t, getTime s = inr t -> isNaN t = true -> r = inr (lit "Invalid Date")) /\
    (forall t e, getTime s = inr t -> isNaN t = false -> dateText t = inl e ->
                 r = inr (lit "Invalid Date")) /\
    (forall t text, getTime s = inr t -> isNaN t = false -> dateText t = inr text ->
                    r = inr text).
Proof.
  intros getTime dateText s Hs. cbv zeta. unfold Utils.formatDate.
  destruct s as [|c s]; [congruence|]. cbn [truthy_opt truthy_string negb].
  repeat split.
  - intros e H. rewrite H. reflexivity.
  - intros t H Hn. rewrite H. cbn. rewrite Hn. reflexivity.
  - intros t e H Hn Hd. rewrite H. cbn. rewrite Hn, Hd. reflexivity.
  - intros t text H Hn Hd. rewrite H. cbn. rewrite Hn, Hd. reflexivity.
Qed.

Lemma formatDate_outcomes_witness :
  let r := Utils.formatDate Samples.no_dates Samples.no_date_text (Val (lit "soon")) in
  (forall e, Samples.no_dates (lit "soon") = inl e -> r = inr (lit "Invalid Date")) /\
  (forall t, Samples.no_dates (lit "soon") = inr t -> isNaN t = true ->
             r = inr (lit "Invalid Date")) /\
  (forall t e, Samples.no_dates (lit "soon") = inr t -> isNaN t = false ->
               Samples.no_date_text t = inl e -> r = inr (lit "Invalid Date")) /\
  (forall t text, Samples.no_dates (lit "soon") = inr t -> isNaN t = false ->
                  Samples.no_date_text t = inr text -> r = inr text).
Proof.
  apply (formatDate_outcomes Samples.no_dates Samples.no_date_text (lit "soon")).
  discriminate.
Defined.

(** X21. Under the [en-US] formatter, [formatCurrency] of a number is the
    placeholder "N/A" exactly when the digits argument is rejected (it is
    NaN, infinite, or outside 0..100).  Otherwise the text is the dollar
    sign followed by the magnitude, with a minus sign in front of the dollar
    sign for a negative number (negative zero included). *)
Theorem currency_placeholder_iff :
  forall (v d : number),
    let r := Utils.formatCurrency EnUS.toLocaleString (Val v) (Some d) in
    (r = inr (lit "N/A") <-> exists e, EnUS.getNumberOption d 0 100 = inl e) /\
    (forall k, EnUS.getNumberOption d 0 100 = inr k ->
       r = inr ((if EnUS.sign_of v then lit "-" else []) ++ lit "$"
                ++ EnUS.magnitude v (Nat.min 2 (Z.to_nat k)) (Z.to_nat k))).
Proof.
  intros v d. cbv zeta.
  unfold Utils.formatCurrency, EnUS.toLocaleString. cbn [Utils.default_digits].
  destruct (EnUS.getNumberOption d 0 100) as [e|k].
  - split; [split; [eauto|reflexivity]|discriminate].
  - split.
    + split.
      * cbn. destruct (EnUS.sign_of v); discriminate.
      * intros [e H]. discriminate.
    + intros k' H. injection H as <-. reflexivity.
Qed.

(** X22. With ASCII lower-casing, every trend label of the type gets its
    style: green for Increasing, red for Decreasing, gray for Stable, and
    the yellow default for Unknown and Error; the label's letter case does
    not matter.  The four styles are pairwise different. *)
Theorem trend_styles :
  (forall t : MarketTrend,
     Utils.getTrendColor Platform.ascii_lower (Val (trend_string t))
     = inr (match t with
            | Increasing => Utils.trend_increasing
            | Decreasing => Utils.trend_decreasing
            | Stable => Utils.trend_stable
            | Unknown | Error => Utils.trend_default
            end)) /\
  (forall s s' : jsstring,
     Platform.ascii_lower s = Platform.ascii_lower s' ->
     Utils.getTrendColor Platform.ascii_lower (Val s)
     = Utils.getTrendColor Platform.ascii_lower (Val s')) /\
  Utils.trend_increasing <> Utils.trend_decreasing /\
  Utils.trend_increasing <> Utils.trend_stable /\
  Utils.trend_increasing <> Utils.trend_default /\
  Utils.trend_decreasing <> Utils.trend_stable /\
  Utils.trend_decreasing <> Utils.trend_default /\
  Utils.trend_stable <> Utils.trend_default.
Proof.
  split; [intros []; vm_compute; reflexivity|].
  split; [intros s s' H; unfold Utils.getTrendColor; rewrite H; reflexivity|].
  repeat split; discriminate.
Qed.

(** ** The provider clients *)

Lemma set_if_given_In (key : string) (arg : option Providers.pystr)
    (ps : list (Providers.pystr * Providers.pystr)) (k v : Providers.pystr) :
  In (k, v) (Providers.set_if_given key arg ps) <->
  In (k, v) ps \/ (k = lit key /\ arg = Some v /\ v <> []).
Proof.
  unfold Providers.set_if_given.
  destruct arg as [[|c s]|]; simpl.
  - split; [auto|]. intros [H|[_ [H Hv]]]; [exact H|]. injection H as <-. now elim Hv.
  - rewrite in_app_iff. simpl. split.
    + intros [H|[H|[]]]; [auto|]. injection H as <- <-. right. repeat split. discriminate.
    + intros [H|[-> [H _]]]; [auto|]. injection H as <-. auto.
  - split; [auto|]. intros [H|[_ [H _]]]; [exact H|discriminate].
Qed.

(** X23. The Rentcast query holds a parameter exactly for each argument
    that is given and not empty: [address], [city] and [state] under their
    own names and [zip_code] under [zipCode].  No parameter is empty, and no
    name occurs twice. *)
Theorem rentcast_params :
  forall (key address city state zip_code : option Providers.pystr) (k v : Providers.pystr),
    let params := Providers.fields
                    (Providers.rentcast_request key address city state zip_code) in
    (In (k, v) params <->
     v <> [] /\
     ((k = lit "address" /\ address = Some v) \/ (k = lit "city" /\ city = Some v) \/
      (k = lit "state" /\ state = Some v) \/ (k = lit "zipCode" /\ zip_code = Some v))) /\
    NoDup (map fst params).
Proof.
  intros key address city state zip_code k v. cbv zeta.
  unfold Providers.rentcast_request. cbn [Providers.fields]. split.
  - rewrite !set_if_given_In. simpl. tauto.
  - destruct address as [[|? ?]|], city as [[|? ?]|], state as [[|? ?]|],
      zip_code as [[|? ?]|]; simpl;
      repeat (constructor; [simpl; intuition discriminate|]); constructor.
Qed.

(** X24. Both clients give up on a failed exchange: an exception of the
    transport is passed on, and a reply whose status is in 400..599 raises
    [HTTPError] with that status, whatever its body.  Outside that range
    the Rentcast client returns the decoded body as it is, and raises when
    the body is not JSON. *)
Theorem provider_failures :
  forall (send : Providers.Request -> Providers.PyResult Providers.Response)
         (rkey zkey address city state zip_code : option Providers.pystr)
         (zaddress : Providers.pystr),
    let rentcast := Providers.rentcast_get_property_info send rkey address city state zip_code in
    let zillow := Providers.zillow_get_property_info send zkey zaddress in
    let rreq := Providers.rentcast_request rkey address city state zip_code in
    let zreq := Providers.zillow_request zkey zaddress in
    (forall e, send rreq = inl e -> rentcast = inl e) /\
    (forall e, send zreq = inl e -> zillow = inl e) /\
    (forall r, send rreq = inr r ->
       (400 <= Providers.status_code r < 600)%Z ->
       rentcast = inl (Providers.HTTPError (Providers.status_code r))) /\
    (forall r, send zreq = inr r ->
       (400 <= Providers.status_code r < 600)%Z ->
       zillow = inl (Providers.HTTPError (Providers.status_code r))) /\
    (forall r, send rreq = inr r ->
       ~ (400 <= Providers.status_code r < 600)%Z ->
       rentcast = match Providers.body r with
                  | Some j => inr j
                  | None => inl Providers.JSONDecodeError
                  end).
Proof.
  intros send rkey zkey address city state zip_code zaddress. cbv zeta.
  unfold Providers.rentcast_get_property_info, Providers.zillow_get_property_info,
    Providers.raise_for_status, Providers.json.
  repeat split.
  - intros e H. rewrite H. reflexivity.
  - intros e H. rewrite H. reflexivity.
  - intros r H [H1 H2]. rewrite H. cbn.
    apply Z.leb_le in H1. apply Z.ltb_lt in H2. rewrite H1, H2. reflexivity.
  - intros r H [H1 H2]. rewrite H. cbn.
    apply Z.leb_le in H1. apply Z.ltb_lt in H2. rewrite H1, H2. reflexivity.
  - intros r H Hn. rewrite H. cbn.
    destruct ((400 <=? Providers.status_code r)%Z && (Providers.status_code r <? 600)%Z) eqn:E.
    + apply andb_true_iff in E as [H1 H2].
      apply Z.leb_le in H1. apply Z.ltb_lt in H2. elim Hn. lia.
    + cbn. destruct (Providers.body r); reflexivity.
Qed.

Lemma dict_get_missing (key : Providers.pystr) (fields : list (Providers.pystr * Providers.Json)) :
  ~ In key (map fst fields) -> Providers.dict_get key fields = Providers.JNull.
Proof.
  induction fields as [|[k v] tl IH]; [reflexivity|]. simpl. intros H.
  rewrite (str_eqb_neq k key) by (intros ->; apply H; auto).
  simpl. apply IH. intros Hin. apply H. auto.
Qed.

Lemma dict_get_bound (key : Providers.pystr) (fields : list (Providers.pystr * Providers.Json))
    (v : Providers.Json) :
  NoDup (map fst fields) -> In (key, v) fields -> Providers.dict_get key fields = v.
Proof.
  induction fields as [|[k w] tl IH]; [contradiction|]. simpl.
  intros Hnd Hin. inversion Hnd as [|? ? Hk Htl]; subst.
  destruct Hin as [H|H].
  - injection H as -> ->.
    rewrite (proj2 (str_eqb_eq key key) eq_refl).
    match goal with |- context [existsb ?f tl] => destruct (existsb f tl) eqn:E end;
      [exfalso|reflexivity].
    apply existsb_exists in E as [[k' w'] [Hin He]]. simpl in He.
    apply str_eqb_eq in He. subst k'.
    apply Hk. apply (in_map fst _ _ Hin).
  - assert (Hne : k <> key).
    { intros ->. apply Hk. apply (in_map fst _ _ H). }
    rewrite (str_eqb_neq _ _ Hne). simpl. apply IH; assumption.
Qed.

(** X25. On a reply that is accepted and whose body is a JSON object, the
    Zillow client returns an object with exactly the keys [zpid], [price]
    and [address], in that order: each holds the reply's value for the key,
    and [None] when the reply has no such key.  A body that is JSON but not
    an object raises [AttributeError]. *)
Theorem zillow_projection :
  forall (send : Providers.Request -> Providers.PyResult Providers.Response)
         (zkey : option Providers.pystr) (zaddress : Providers.pystr)
         (r : Providers.Response) (j : Providers.Json),
    send (Providers.zillow_request zkey zaddress) = inr r ->
    ~ (400 <= Providers.status_code r < 600)%Z ->
    Providers.body r = Some j ->
    let result := Providers.zillow_get_property_info send zkey zaddress in
    (forall fields, j = Providers.JObject fields ->
       exists zpid price address,
         result = inr (Providers.JObject
                         [(lit "zpid", zpid); (lit "price", price); (lit "address", address)]) /\
         (~ In (lit "zpid") (map fst fields) -> zpid = Providers.JNull) /\
         (~ In (lit "price") (map fst fields) -> price = Providers.JNull) /\
         (~ In (lit "address") (map fst fields) -> address = Providers.JNull) /\
         (NoDup (map fst fields) ->
          (forall v, In (lit "zpid", v) fields -> zpid = v) /\
          (forall v, In (lit "price", v) fields -> price = v) /\
          (forall v, In (lit "address", v) fields -> address = v))) /\
    ((forall fields, j <> Providers.JObject fields) ->
     result = inl Providers.AttributeError).
Proof.
  intros send zkey zaddress r j Hs Hn Hb. cbv zeta.
  unfold Providers.zillow_get_property_info, Providers.raise_for_status, Providers.json.
  rewrite Hs. cbn.
  destruct ((400 <=? Providers.status_code r)%Z && (Providers.status_code r <? 600)%Z) eqn:E.
  { apply andb_true_iff in E as [H1 H2].
    apply Z.leb_le in H1. apply Z.ltb_lt in H2. elim Hn. lia. }
  cbn. rewrite Hb. split.
  - intros fields ->. do 3 eexists. split; [reflexivity|].
    split; [apply dict_get_missing|]. split; [apply dict_get_missing|].
    split; [apply dict_get_missing|].
    intros Hnd. repeat split; intros v Hin; apply dict_get_bound; assumption.
  - intros H. destruct j; try reflexivity. elim (H fields). reflexivity.
Qed.

Lemma zillow_projection_witness :
  let reply := Providers.JObject [(lit "zpid", Providers.JString (lit "2077"));
                                  (lit "status", Providers.JBool true)] in
  let send := fun _ : Providers.Request =>
                inr {| Providers.status_code := 200; Providers.body := Some reply |} in
  let result := Providers.zillow_get_property_info send None (lit "1 Main St") in
  (forall fields, reply = Providers.JObject fields ->
     exists zpid price address,
       result = inr (Providers.JObject
                       [(lit "zpid", zpid); (lit "price", price); (lit "address", address)]) /\
       (~ In (lit "zpid") (map fst fields) -> zpid = Providers.JNull) /\
       (~ In (lit "price") (map fst fields) -> price = Providers.JNull) /\
       (~ In (lit "address") (map fst fields) -> address = Providers.JNull) /\
       (NoDup (map fst fields) ->
        (forall v, In (lit "zpid", v) fields -> zpid = v) /\
        (forall v, In (lit "price", v) fields -> price = v) /\
        (forall v, In (lit "address", v) fields -> address = v))) /\
  ((forall fields, reply <> Providers.JObject fields) ->
   result = inl Providers.AttributeError).
Proof.
  apply (zillow_projection
           (fun _ : Providers.Request =>
              inr {| Providers.status_code := 200;
                     Providers.body :=
                       Some (Providers.JObject [(lit "zpid", Providers.JString (lit "2077"));
                                                (lit "status", Providers.JBool true)]) |})
           None (lit "1 Main St")
           {| Providers.status_code := 200;
              Providers.body :=
                Some (Providers.JObject [(lit "zpid", Providers.JString (lit "2077"));
                                         (lit "status", Providers.JBool true)]) |}
           (Providers.JObject [(lit "zpid", Providers.JString (lit "2077"));
                               (lit "status", Providers.JBool true)])).
  - reflexivity.
  - cbn. lia.
  - reflexivity.
Defined.
